(** * App Store status tracker: change detection and notification composition

    A shallow embedding of the class [AppStatusService]
    (services/app-status-service.ts) and of its driver [main]
    (src/index.ts).

    - The status file [status.json] is the only mutable resource.  It is
      modelled together with the console and the list of webhook requests
      issued so far as the state [Sys] of a small state-and-exception monad
      [Eff]; [try]/[catch] blocks of the source are [try_catch].
    - The network, the token signer, the clock and the date formatter are
      external: they are the fields of a [World] record.
    - [StatusStorage] (a JavaScript object used as a dictionary keyed by
      application id) is a [gmap string AppStatus]: ids are App Store
      Connect's identifiers and are looked up as the object's own keys.
    - The text of the status file is kept up to what [JSON.parse] makes of
      it: either text the parser rejects, or the encoding of a
      [StatusStorage] (the declared return type of [loadPreviousStatuses]).
    - The file is a cell: reading fails only when the file does not exist,
      and writing succeeds. *)

From Stdlib Require Import ZArith.
From stdpp Require Import gmap strings list fin_maps pretty.

Open Scope string_scope.

(** ** Data model *)

(** [interface AppStatus] *)
Record AppStatus := {
  state : string;
  createdDate : option string;
  versionString : string;
  releaseType : string
}.

(** [interface StatusStorage { [appId: string]: AppStatus }] *)
Abbreviation StatusStorage := (gmap string AppStatus).

(** [interface AppConfig] *)
Record AppConfig := {
  name : string;
  appId : string;
  webhookUrl : string;
  icon : string
}.

(** [interface AppStoreConnectResponse]; optional members are [option]s. *)
Module Api.
Record Attributes := {
  platform : string;
  appVersionState : string;
  createdDate : option string;
  versionString : string;
  releaseType : string
}.
Record BuildRef := { ref_type : string; ref_id : string }.
Record BuildRel := { build_data : option BuildRef }.
Record Relationships := { build : option BuildRel }.
Record Version := {
  type : string;
  id : string;
  attributes : Attributes;
  relationships : option Relationships
}.
Record IncludedAttributes := { version : option string }.
Record Included := {
  inc_type : string;
  inc_id : string;
  inc_attributes : IncludedAttributes
}.
Record Response := {
  data : list Version;
  included : option (list Included)
}.
End Api.

(** The object posted to the webhook. *)
Record Field := { title : string; value : string; short : bool }.

Record EmbedField := {
  ef_name : string;
  ef_value : string;
  ef_inline : bool
}.

Record Embed := {
  em_title : string;
  em_color : Z;
  em_author_name : string;
  em_author_icon_url : string;
  em_footer_text : string;
  em_footer_icon_url : string;
  em_timestamp : string;
  em_url : string;
  em_fields : list EmbedField
}.

Record WebhookPayload := { embeds : list Embed }.

(** ** Exceptions and effects *)

Inductive Error :=
  | AxiosError (status : option nat)   (* [error.response?.status] *)
  | JsError (message : string)         (* [new Error(message)] *)
  | SystemError (code : string).       (* thrown by fs, JSON or jwt *)

Inductive Outcome (A : Type) :=
  | Returned (a : A)
  | Thrown (e : Error).
Arguments Returned {A} a.
Arguments Thrown {A} e.

Definition returned {A} (o : Outcome A) : bool :=
  match o with Returned _ => true | Thrown _ => false end.

(** Text of the status file, up to [JSON.parse]. *)
Inductive FileText :=
  | Malformed (raw : string)
  | Encoded (m : StatusStorage).

Inductive ConsoleEntry :=
  | LogText (text : string)
  | LogError (text : string) (e : Error)
  | LogBare (e : Error).

(** One [axios.post] request and whether its promise resolved. *)
Record Delivery := {
  to : string;
  body : WebhookPayload;
  delivered : bool
}.

Record Sys := {
  status_file : option FileText;   (* [None]: the file does not exist *)
  console : list ConsoleEntry;
  outbox : list Delivery
}.

(** The external collaborators of one pass. *)
Record World := {
  env_key_id : option string;
  env_issuer_id : option string;
  env_private_key : option string;
  jwt_sign : option string -> option string -> option string
             -> Outcome string;
  http_get : string -> string -> Outcome Api.Response;
  http_post : string -> WebhookPayload -> Outcome unit;
  dayjs_format : string -> string;
  date_now_iso : string
}.

Definition Eff (A : Type) : Type := Sys -> Outcome A * Sys.

Definition ret {A} (a : A) : Eff A := fun s => (Returned a, s).

Definition bind {A B} (c : Eff A) (k : A -> Eff B) : Eff B := fun s =>
  match c s with
  | (Returned a, s') => k a s'
  | (Thrown e, s') => (Thrown e, s')
  end.

Declare Scope eff_scope.
Delimit Scope eff_scope with eff.
Bind Scope eff_scope with Eff.

Notation "x ← c ; k" := (bind c (fun x => k))
  (at level 20, c at level 100, k at level 200, only parsing) : eff_scope.
Notation "c ;; k" := (bind c (fun _ => k))
  (at level 100, k at level 200, only parsing, right associativity)
  : eff_scope.

Open Scope eff_scope.

Definition throw {A} (e : Error) : Eff A := fun s => (Thrown e, s).

Definition try_catch {A} (c : Eff A) (handler : Error -> Eff A) : Eff A :=
  fun s =>
    match c s with
    | (Returned a, s') => (Returned a, s')
    | (Thrown e, s') => handler e s'
    end.

Definition lift {A} (o : Outcome A) : Eff A := fun s => (o, s).

Definition exec {A} (c : Eff A) (s : Sys) : Sys := snd (c s).
Definition eval {A} (c : Eff A) (s : Sys) : Outcome A := fst (c s).

(** *** Primitive effects *)

Definition console_error (entry : ConsoleEntry) : Eff unit := fun s =>
  (Returned tt,
   {| status_file := status_file s;
      console := console s ++ [entry];
      outbox := outbox s |}).

Definition existsSync : Eff bool := fun s =>
  (Returned (bool_decide (is_Some (status_file s))), s).

Definition readFileSync : Eff FileText := fun s =>
  match status_file s with
  | Some text => (Returned text, s)
  | None => (Thrown (SystemError "ENOENT"), s)
  end.

Definition writeFileSync (text : FileText) : Eff unit := fun s =>
  (Returned tt,
   {| status_file := Some text;
      console := console s;
      outbox := outbox s |}).

Definition JSON_parse (text : FileText) : Eff StatusStorage :=
  match text with
  | Malformed _ => throw (SystemError "SyntaxError")
  | Encoded m => ret m
  end.

Definition JSON_stringify (m : StatusStorage) : FileText := Encoded m.

Definition axios_get (w : World) (url token : string) : Eff Api.Response :=
  lift (http_get w url token).

Definition axios_post (w : World) (url : string) (payload : WebhookPayload)
  : Eff unit := fun s =>
  let r := http_post w url payload in
  (r,
   {| status_file := status_file s;
      console := console s;
      outbox := outbox s ++
        [{| to := url; body := payload; delivered := returned r |}] |}).

(** JavaScript truthiness of an optional string, and its rendering inside
    a template literal. *)
Definition truthy (v : option string) : bool :=
  match v with
  | Some s => negb (s =? "")
  | None => false
  end.

Definition template (v : option string) : string :=
  match v with
  | Some s => s
  | None => "undefined"
  end.

(** ** The lookup tables of the composer *)

(** [getStateEmoji] *)
Definition getStateEmoji (state : string) : string :=
  if state =? "ACCEPTED" then "✅"
  else if state =? "DEVELOPER_REJECTED" then "🚫"
  else if state =? "IN_REVIEW" then "🔍"
  else if state =? "INVALID_BINARY" then "⚠️"
  else if state =? "METADATA_REJECTED" then "📝❌"
  else if state =? "PENDING_APPLE_RELEASE" then "⏳"
  else if state =? "PENDING_DEVELOPER_RELEASE" then "👨‍💻"
  else if state =? "PREPARE_FOR_SUBMISSION" then "📦"
  else if state =? "PROCESSING_FOR_DISTRIBUTION" then "⚙️"
  else if state =? "READY_FOR_DISTRIBUTION" then "🎉"
  else if state =? "READY_FOR_REVIEW" then "📤"
  else if state =? "REJECTED" then "❌"
  else if state =? "REPLACED_WITH_NEW_VERSION" then "🔄"
  else if state =? "WAITING_FOR_EXPORT_COMPLIANCE" then "📋"
  else if state =? "WAITING_FOR_REVIEW" then "⏳"
  else "❓".

(** [getStateMessage] *)
Definition getStateMessage (state : string) : string :=
  if state =? "ACCEPTED" then "심사 승인"
  else if state =? "DEVELOPER_REJECTED" then "개발자에 의한 심사 취소"
  else if state =? "IN_REVIEW" then "심사 진행 중"
  else if state =? "INVALID_BINARY" then "바이너리 무효"
  else if state =? "METADATA_REJECTED" then "메타데이터 거절"
  else if state =? "PENDING_APPLE_RELEASE" then "애플 출시 대기 중"
  else if state =? "PENDING_DEVELOPER_RELEASE" then "심사 승인, 출시 대기 중"
  else if state =? "PREPARE_FOR_SUBMISSION" then "제출 준비 중"
  else if state =? "PROCESSING_FOR_DISTRIBUTION" then "배포 처리 중"
  else if state =? "READY_FOR_DISTRIBUTION" then "배포 완료"
  else if state =? "READY_FOR_REVIEW" then "심사 준비 완료"
  else if state =? "REJECTED" then "심사 거절"
  else if state =? "REPLACED_WITH_NEW_VERSION" then "새 버전으로 대체됨"
  else if state =? "WAITING_FOR_EXPORT_COMPLIANCE" then "수출 규정 검토 대기 중"
  else if state =? "WAITING_FOR_REVIEW" then "심사 대기 중"
  else "알 수 없는 상태".

(** [getStateColor]; cases sharing a [return] are grouped as in the source. *)
Definition getStateColor (state : string) : Z :=
  if (state =? "ACCEPTED") || (state =? "READY_FOR_DISTRIBUTION")
  then 0x36a64f
  else if (state =? "DEVELOPER_REJECTED") || (state =? "REJECTED")
          || (state =? "INVALID_BINARY") || (state =? "METADATA_REJECTED")
  then 0xdc3545
  else if (state =? "IN_REVIEW") || (state =? "WAITING_FOR_REVIEW")
          || (state =? "WAITING_FOR_EXPORT_COMPLIANCE")
  then 0xffc107
  else if (state =? "PENDING_APPLE_RELEASE")
          || (state =? "PENDING_DEVELOPER_RELEASE")
          || (state =? "PROCESSING_FOR_DISTRIBUTION")
  then 0x0088cc
  else if (state =? "PREPARE_FOR_SUBMISSION") || (state =? "READY_FOR_REVIEW")
          || (state =? "REPLACED_WITH_NEW_VERSION")
  then 0x6f42c1
  else 0x95a5a6.

(** [getReleaseTypeMessage] *)
Definition getReleaseTypeMessage (releaseType : string) : string :=
  if releaseType =? "MANUAL" then "📤 수동 배포"
  else if releaseType =? "AFTER_APPROVAL" then "🚀 승인 후 자동 배포"
  else if releaseType =? "SCHEDULED" then "⏰ 예약 배포"
  else releaseType +:+ " 배포".

(** The closed enumeration of lifecycle states the tables list. *)
Definition lifecycle_states : list string :=
  [ "ACCEPTED"; "DEVELOPER_REJECTED"; "IN_REVIEW"; "INVALID_BINARY";
    "METADATA_REJECTED"; "PENDING_APPLE_RELEASE"; "PENDING_DEVELOPER_RELEASE";
    "PREPARE_FOR_SUBMISSION"; "PROCESSING_FOR_DISTRIBUTION";
    "READY_FOR_DISTRIBUTION"; "READY_FOR_REVIEW"; "REJECTED";
    "REPLACED_WITH_NEW_VERSION"; "WAITING_FOR_EXPORT_COMPLIANCE";
    "WAITING_FOR_REVIEW" ].

(** ** The status store *)

(** [initializeStatusFile], run by the constructor. *)
Definition initializeStatusFile : Eff unit :=
  present ← existsSync;
  if negb present then writeFileSync (JSON_stringify ∅) else ret tt.

(** [loadPreviousStatuses] *)
Definition loadPreviousStatuses : Eff StatusStorage :=
  try_catch
    (data ← readFileSync;
     JSON_parse data)
    (fun error =>
       console_error
         (LogError "상태 파일을 읽는 중 오류가 발생했습니다:" error);;
       ret ∅).

(** [savePreviousStatus] *)
Definition savePreviousStatus (appId : string) (status : AppStatus)
  : Eff unit :=
  try_catch
    (currentStatuses ← loadPreviousStatuses;
     let currentStatuses := <[appId := status]> currentStatuses in
     writeFileSync (JSON_stringify currentStatuses))
    (fun error =>
       console_error
         (LogError "상태 파일을 저장하는 중 오류가 발생했습니다:" error)).

(** [hasStatusChanged] *)
Definition hasStatusChanged (appId : string) (currentStatus : AppStatus)
  : Eff bool :=
  previousStatuses ← loadPreviousStatuses;
  match previousStatuses !! appId with
  | None => ret true
  | Some previousStatus =>
      ret (negb (state previousStatus =? state currentStatus)
            || negb (versionString previousStatus
                     =? versionString currentStatus))
  end.

(** ** The composer: the body of [if (this.hasStatusChanged(...))] *)

(** Lines 158-160. *)
Definition submittedDate (w : World) (currentStatus : AppStatus) : string :=
  match createdDate currentStatus with
  | Some d => if truthy (Some d) then dayjs_format w d else "없음"
  | None => "없음"
  end.

(** Lines 163-165; [previousStatus && ...] is used only for its truth. *)
Definition versionChanged (previousStatus : option AppStatus)
    (currentStatus : AppStatus) : bool :=
  match previousStatus with
  | Some p => negb (versionString p =? versionString currentStatus)
  | None => false
  end.

Definition stateChanged (previousStatus : option AppStatus)
    (currentStatus : AppStatus) : bool :=
  match previousStatus with
  | Some p => negb (state p =? state currentStatus)
  | None => true
  end.

(** Lines 167-175. *)
Definition titleText (app : AppConfig) (previousStatus : option AppStatus)
    (currentStatus : AppStatus) : string :=
  if versionChanged previousStatus currentStatus
     && stateChanged previousStatus currentStatus
  then name app +:+ " 버전과 상태가 변경되었습니다!"
  else if versionChanged previousStatus currentStatus
  then name app +:+ " 버전이 변경되었습니다!"
  else name app +:+ " 상태가 변경되었습니다!".

(** Lines 177-188: the local [versionString]. *)
Definition displayVersion (currentStatus : AppStatus)
    (buildNumber : option string) : string :=
  if (state currentStatus =? "READY_FOR_DISTRIBUTION")
     || (state currentStatus =? "PENDING_DEVELOPER_RELEASE")
     || (state currentStatus =? "WAITING_FOR_REVIEW")
     || (state currentStatus =? "IN_REVIEW")
  then versionString currentStatus +:+ " (" +:+ template buildNumber +:+ ")"
  else versionString currentStatus.

(** Lines 190-229: the array [fields] after the conditional [push]. *)
Definition fields (w : World) (previousStatus : option AppStatus)
    (currentStatus : AppStatus) (buildNumber : option string) : list Field :=
  let fields :=
    [ {| title := "현재 상태";
         value := getStateEmoji (state currentStatus) +:+ " "
                  +:+ getStateMessage (state currentStatus);
         short := true |};
      {| title := "현재 버전";
         value := displayVersion currentStatus buildNumber;
         short := true |};
      {| title := "버전 출시 타입";
         value := getReleaseTypeMessage (releaseType currentStatus);
         short := true |} ] in
  match previousStatus with
  | Some p =>
      if versionChanged previousStatus currentStatus
      then fields ++
           [ {| title := "이전 버전"; value := versionString p;
                short := true |};
             {| title := "제출 일시"; value := submittedDate w currentStatus;
                short := true |} ]
      else fields ++
           [ {| title := "제출 일시"; value := submittedDate w currentStatus;
                short := true |} ]
  | None =>
      fields ++
      [ {| title := "제출 일시"; value := submittedDate w currentStatus;
           short := true |} ]
  end.

(** Lines 231-254. *)
Definition webhookPayload (w : World) (app : AppConfig)
    (previousStatus : option AppStatus) (currentStatus : AppStatus)
    (buildNumber : option string) : WebhookPayload :=
  {| embeds :=
       [ {| em_title := titleText app previousStatus currentStatus;
            em_color := getStateColor (state currentStatus);
            em_author_name := name app;
            em_author_icon_url := icon app;
            em_footer_text := "App Store Connect";
            em_footer_icon_url :=
              "https://developer.apple.com/assets/elements/icons/app-store-connect/app-store-connect-64x64.png";
            em_timestamp := date_now_iso w;
            em_url := "https://appstoreconnect.apple.com/apps/"
                      +:+ appId app +:+ "/appstore";
            em_fields :=
              map (fun field =>
                     {| ef_name := title field;
                        ef_value := value field;
                        ef_inline := short field || false |})
                  (fields w previousStatus currentStatus buildNumber) |} ] |}.

(** ** The orchestrator *)

(** [generateToken]: the payload and header are fixed by the three
    environment variables; signing is external. *)
Definition generateToken (w : World) : Eff string :=
  lift (jwt_sign w (env_key_id w) (env_issuer_id w) (env_private_key w)).

(** Lines 141-148: the local [buildNumber]; each [?.] is a [match]. *)
Definition buildNumber (latestVersion : Api.Version)
    (response : Api.Response) : option string :=
  let id : option string :=
    match Api.relationships latestVersion with
    | Some relationships =>
        match Api.build relationships with
        | Some build => Api.ref_id <$> Api.build_data build
        | None => None
        end
    | None => None
    end in
  match id, Api.included response with
  | Some buildId, Some included =>
      if truthy (Some buildId)
      then
        let buildInfo :=
          List.find
            (fun item => (Api.inc_type item =? "builds")
                         && (Api.inc_id item =? buildId))
            included in
        match buildInfo with
        | Some item => Api.version (Api.inc_attributes item)
        | None => None
        end
      else None
  | _, _ => None
  end.

(** Lines 150-155. *)
Definition currentStatus (latestVersion : Api.Version) : AppStatus :=
  {| state := Api.appVersionState (Api.attributes latestVersion);
     createdDate := Api.createdDate (Api.attributes latestVersion);
     versionString := Api.versionString (Api.attributes latestVersion);
     releaseType := Api.releaseType (Api.attributes latestVersion) |}.

Definition versionsUrl (app : AppConfig) : string :=
  "https://api.appstoreconnect.apple.com/v1/apps/" +:+ appId app
  +:+ "/appStoreVersions?include=build".

(** Lines 118-155 of the [try] block: the request and what is read off the
    response, the pair of [currentStatus] and [buildNumber]. *)
Definition fetchLatest (w : World) (app : AppConfig)
  : Eff (AppStatus * option string) :=
  token ← generateToken w;
  response ← axios_get w (versionsUrl app) token;
  (if (length (Api.data response) =? 0)%nat
   then throw (JsError "앱 버전 정보를 찾을 수 없습니다.")
   else ret tt);;
  let filterIOS :=
    List.filter (fun item => Api.platform (Api.attributes item) =? "IOS")
                (Api.data response) in
  match filterIOS with
  | [] => throw (JsError "iOS 앱 버전 정보를 찾을 수 없습니다.")
  | latestVersion :: _ =>
      ret (currentStatus latestVersion, buildNumber latestVersion response)
  end.

(** Lines 157-259 of the [try] block: detect, compose, deliver, persist. *)
Definition notifyAndSave (w : World) (app : AppConfig)
    (currentStatus : AppStatus) (buildNumber : option string) : Eff unit :=
  changed ← hasStatusChanged (appId app) currentStatus;
  (if changed
   then
     previousStatuses ← loadPreviousStatuses;
     let previousStatus := previousStatuses !! appId app in
     axios_post w (webhookUrl app)
       (webhookPayload w app previousStatus currentStatus buildNumber)
   else ret tt);;
  savePreviousStatus (appId app) currentStatus.

(** Lines 260-277: the [catch] block.  The [errorMessage] it builds is used
    by nothing (the request that would send it is commented out). *)
Definition checkAppCatch (app : AppConfig) (error : Error) : Eff unit :=
  console_error
    (LogError ("Error checking " +:+ name app +:+ " status:") error);;
  console_error (LogBare error).

(** Lines 117-259: the [try] block. *)
Definition checkAppTry (w : World) (app : AppConfig) : Eff unit :=
  fetched ← fetchLatest w app;
  notifyAndSave w app (fst fetched) (snd fetched).

(** Lines 117-277: the body of the loop, one [try]/[catch] per application. *)
Definition checkApp (w : World) (app : AppConfig) : Eff unit :=
  try_catch (checkAppTry w app) (checkAppCatch app).

(** [for (const app of this.apps)] *)
Fixpoint for_of {A} (l : list A) (body : A -> Eff unit) : Eff unit :=
  match l with
  | [] => ret tt
  | x :: l' => body x;; for_of l' body
  end.

(** [checkAppStatus] *)
Definition checkAppStatus (w : World) (apps : list AppConfig) : Eff unit :=
  if negb (truthy (env_key_id w))
     || negb (truthy (env_issuer_id w))
     || negb (truthy (env_private_key w))
  then console_error (LogText "App Store Connect API 인증 정보가 없습니다.")
  else for_of apps (checkApp w).

(** The constructor. *)
Definition newAppStatusService : Eff unit := initializeStatusFile.

(** ** The driver (src/index.ts) *)

(** What [main] finds at [apps.json]: no file, text the parser rejects, a
    JSON value that is not an array, or an array of [AppConfig]. *)
Inductive AppsFile :=
  | AppsMissing
  | AppsMalformed
  | AppsNotArray
  | AppsArray (appsConfig : list AppConfig).

(** How the process ends: [main] runs to its end, or [process.exit]. *)
Inductive Exit :=
  | Completed
  | Exited (code : nat).

(** [console.log]; the console is one terminal for both streams. *)
Definition console_log (text : string) : Eff unit :=
  console_error (LogText text).

(** [main].  [w] and [w'] are the collaborators as they answer during the
    first and during the second call of [checkAppStatus]. *)
Definition main (w w' : World) (appsConfigPath : string)
    (appsFile : AppsFile) : Eff Exit :=
  try_catch
    ((if negb (truthy (env_key_id w))
         || negb (truthy (env_issuer_id w))
         || negb (truthy (env_private_key w))
      then throw (JsError "App Store Connect API not exist")
      else ret tt);;
     appsConfig ←
       match appsFile with
       | AppsMissing =>
           throw (JsError ("apps.json not exist: " +:+ appsConfigPath))
       | AppsMalformed => throw (SystemError "SyntaxError")
       | AppsNotArray => throw (JsError "apps.json is empty or invalid.")
       | AppsArray appsConfig =>
           if (length appsConfig =? 0)%nat
           then throw (JsError "apps.json is empty or invalid.")
           else ret appsConfig
       end;
     console_log (pretty (length appsConfig)
                  +:+ " apps loaded from apps.json.");;
     newAppStatusService;;
     console_log "Checking app statuses...";;
     checkAppStatus w appsConfig;;
     try_catch
       (checkAppStatus w' appsConfig)
       (fun error =>
          console_error (LogError "Error checking app status:" error));;
     ret Completed)
    (fun error =>
       console_error (LogError "Error initializing app:" error);;
       ret (Exited 1)).

(** * Vocabulary of the statements *)

(** What [loadPreviousStatuses] returns, read off the file. *)
Definition stored (s : Sys) : StatusStorage :=
  match status_file s with
  | Some (Encoded m) => m
  | _ => ∅
  end.

(** What a failing read leaves on the console. *)
Definition load_log (s : Sys) : list ConsoleEntry :=
  match status_file s with
  | None =>
      [LogError "상태 파일을 읽는 중 오류가 발생했습니다:" (SystemError "ENOENT")]
  | Some (Malformed _) =>
      [LogError "상태 파일을 읽는 중 오류가 발생했습니다:"
                (SystemError "SyntaxError")]
  | Some (Encoded _) => []
  end.

Definition with_console (s : Sys) (entries : list ConsoleEntry) : Sys :=
  {| status_file := status_file s;
     console := console s ++ entries;
     outbox := outbox s |}.

(** The verdict of [hasStatusChanged], read off the file. *)
Definition changed (s : Sys) (appId : string) (cur : AppStatus) : bool :=
  match stored s !! appId with
  | None => true
  | Some prev =>
      negb (state prev =? state cur)
      || negb (versionString prev =? versionString cur)
  end.

(** The request [notifyAndSave] sends when it sends one. *)
Definition notification (w : World) (app : AppConfig) (s : Sys)
    (cur : AppStatus) (bn : option string) : WebhookPayload :=
  webhookPayload w app (stored s !! appId app) cur bn.

Definition attempt (w : World) (app : AppConfig) (p : WebhookPayload)
  : Delivery :=
  {| to := webhookUrl app; body := p;
     delivered := returned (http_post w (webhookUrl app) p) |}.

(** The states for which a build number is shown next to the version. *)
Definition build_relevant_states : list string :=
  [ "READY_FOR_DISTRIBUTION"; "PENDING_DEVELOPER_RELEASE";
    "WAITING_FOR_REVIEW"; "IN_REVIEW" ].

(** The property as the specification words it: after a pass whose fetch
    and detection succeeded, found a change, and whose webhook request
    failed, the store holds the fetched record and a later pass fetching the
    same record sends nothing. *)
Definition persistence_after_failed_delivery : Prop :=
  forall (w w' : World) (app : AppConfig) (s : Sys)
         (cur : AppStatus) (bn bn' : option string) (e : Error),
    eval (fetchLatest w app) s = Returned (cur, bn) ->
    eval (hasStatusChanged (appId app) cur) s = Returned true ->
    (forall payload, http_post w (webhookUrl app) payload = Thrown e) ->
    let s1 := exec (checkApp w app) s in
    eval (fetchLatest w' app) s1 = Returned (cur, bn') ->
    (exists m, eval loadPreviousStatuses s1 = Returned m
               /\ m !! appId app = Some cur)
    /\ outbox (exec (checkApp w' app) s1) = outbox s1.

(** The store holds what the fetch for [app] returns. *)
Definition settled (w : World) (s : Sys) (app : AppConfig) : Prop :=
  forall cur bn s0,
    eval (fetchLatest w app) s0 = Returned (cur, bn) ->
    stored s !! appId app = Some cur.

(** All webhook requests are accepted. *)
Definition accepting (w : World) : Prop :=
  forall url payload, returned (http_post w url payload) = true.

(** All three credentials are set and non-empty. *)
Definition credentials (w : World) : bool :=
  truthy (env_key_id w) && truthy (env_issuer_id w)
  && truthy (env_private_key w).

(** The end of a run that stops at startup with [error]. *)
Definition startup_failure (s : Sys) (error : Error) : Outcome Exit * Sys :=
  (Returned (Exited 1),
   {| status_file := status_file s;
      console := console s ++ [LogError "Error initializing app:" error];
      outbox := outbox s |}).


(** ** A concrete scenario *)

Definition sample_app : AppConfig :=
  {| name := "Demo";
     appId := "6446012345";
     webhookUrl := "https://discord.test/api/webhooks/1";
     icon := "https://discord.test/icon.png" |}.

Definition sample_version (st vs : string) : Api.Version :=
  {| Api.type := "appStoreVersions";
     Api.id := "v-1";
     Api.attributes :=
       {| Api.platform := "IOS";
          Api.appVersionState := st;
          Api.createdDate := Some "2024-05-01T09:00:00Z";
          Api.versionString := vs;
          Api.releaseType := "MANUAL" |};
     Api.relationships := None |}.

Definition sample_response (st vs : string) : Api.Response :=
  {| Api.data := [sample_version st vs]; Api.included := None |}.

Definition sample_world (answer : Outcome Api.Response)
    (post : Outcome unit) : World :=
  {| env_key_id := Some "KEY";
     env_issuer_id := Some "ISSUER";
     env_private_key := Some "PRIVATE";
     jwt_sign := fun _ _ _ => Returned "token";
     http_get := fun _ _ => answer;
     http_post := fun _ _ => post;
     dayjs_format := fun d => d;
     date_now_iso := "2024-05-01T10:00:00.000Z" |}.

Definition sample_status (st vs : string) : AppStatus :=
  currentStatus (sample_version st vs).

Definition empty_store : Sys :=
  {| status_file := Some (Encoded ∅); console := []; outbox := [] |}.

Definition corrupt_store : Sys :=
  {| status_file := Some (Malformed "{ not json"); console := [];
     outbox := [] |}.

(** * Properties *)

Ltac eff_unfold :=
  unfold eval, exec, bind, ret, throw, try_catch, lift, console_error,
    readFileSync, writeFileSync, existsSync, JSON_parse, JSON_stringify,
    axios_post, axios_get, with_console in *.

(** ** Running the store operations *)

Lemma with_console_nil s : with_console s [] = s.
Proof. destruct s. unfold with_console. simpl. by rewrite app_nil_r. Qed.

Lemma with_console_app s l1 l2 :
  with_console (with_console s l1) l2 = with_console s (l1 ++ l2).
Proof. unfold with_console. simpl. by rewrite app_assoc. Qed.

Lemma stored_with_console s l : stored (with_console s l) = stored s.
Proof. reflexivity. Qed.

Lemma load_log_with_console s l : load_log (with_console s l) = load_log s.
Proof. reflexivity. Qed.

Lemma loadPreviousStatuses_run s :
  loadPreviousStatuses s = (Returned (stored s), with_console s (load_log s)).
Proof.
  unfold loadPreviousStatuses, stored, load_log. eff_unfold.
  destruct s as [[[raw|m]|] c o]; simpl; try reflexivity.
  by rewrite app_nil_r.
Qed.

Lemma initializeStatusFile_run s :
  initializeStatusFile s =
  (Returned tt,
   match status_file s with
   | Some _ => s
   | None =>
       {| status_file := Some (Encoded ∅);
          console := console s;
          outbox := outbox s |}
   end).
Proof.
  unfold initializeStatusFile. eff_unfold.
  destruct (status_file s); reflexivity.
Qed.

Lemma savePreviousStatus_run appId status s :
  savePreviousStatus appId status s =
  (Returned tt,
   {| status_file := Some (Encoded (<[appId := status]> (stored s)));
      console := console s ++ load_log s;
      outbox := outbox s |}).
Proof.
  unfold savePreviousStatus. unfold try_catch, bind at 1.
  rewrite loadPreviousStatuses_run. reflexivity.
Qed.

Lemma hasStatusChanged_run appId cur s :
  hasStatusChanged appId cur s =
  (Returned
     (match stored s !! appId with
      | None => true
      | Some prev =>
          negb (state prev =? state cur)
          || negb (versionString prev =? versionString cur)
      end),
   with_console s (load_log s)).
Proof.
  unfold hasStatusChanged. unfold bind at 1.
  rewrite loadPreviousStatuses_run.
  destruct (stored s !! appId); reflexivity.
Qed.

(** ** Running one iteration of the loop *)

(** The fetch reads and writes nothing of [Sys]. *)
Lemma fetchLatest_run w app s s0 :
  fetchLatest w app s = (eval (fetchLatest w app) s0, s).
Proof.
  unfold fetchLatest, generateToken. eff_unfold.
  destruct (jwt_sign w _ _ _) as [token|e]; simpl; [|done].
  destruct (http_get w _ token) as [response|e]; simpl; [|done].
  destruct (length (Api.data response) =? 0)%nat; simpl; [done|].
  destruct (List.filter _ _); done.
Qed.

Lemma fetchLatest_eval w app s s0 :
  eval (fetchLatest w app) s = eval (fetchLatest w app) s0.
Proof. unfold eval at 1. by rewrite (fetchLatest_run w app s s0). Qed.

Lemma notifyAndSave_unchanged w app cur bn s :
  changed s (appId app) cur = false ->
  notifyAndSave w app cur bn s =
  (Returned tt,
   {| status_file := Some (Encoded (<[appId app := cur]> (stored s)));
      console := console s ++ load_log s ++ load_log s;
      outbox := outbox s |}).
Proof.
  intros Hc. unfold notifyAndSave. unfold bind at 1.
  rewrite hasStatusChanged_run. fold (changed s (appId app) cur).
  rewrite Hc. unfold bind, ret. rewrite savePreviousStatus_run.
  rewrite stored_with_console, load_log_with_console. simpl.
  by rewrite app_assoc.
Qed.

Lemma notifyAndSave_delivered w app cur bn s :
  changed s (appId app) cur = true ->
  returned (http_post w (webhookUrl app) (notification w app s cur bn))
    = true ->
  notifyAndSave w app cur bn s =
  (Returned tt,
   {| status_file := Some (Encoded (<[appId app := cur]> (stored s)));
      console := console s ++ load_log s ++ load_log s ++ load_log s;
      outbox := outbox s ++ [attempt w app (notification w app s cur bn)] |}).
Proof.
  intros Hc Hp. unfold notifyAndSave. unfold bind at 1.
  rewrite hasStatusChanged_run. fold (changed s (appId app) cur).
  rewrite Hc. unfold bind at 1. unfold bind at 1.
  rewrite loadPreviousStatuses_run.
  rewrite stored_with_console, load_log_with_console, with_console_app.
  unfold axios_post, attempt, notification in *.
  destruct (http_post w _ _) as [[]|e]; [|done].
  rewrite savePreviousStatus_run. simpl. by rewrite <- !app_assoc.
Qed.

Lemma notifyAndSave_failed w app cur bn s e :
  changed s (appId app) cur = true ->
  http_post w (webhookUrl app) (notification w app s cur bn) = Thrown e ->
  notifyAndSave w app cur bn s =
  (Thrown e,
   {| status_file := status_file s;
      console := console s ++ load_log s ++ load_log s;
      outbox := outbox s ++ [attempt w app (notification w app s cur bn)] |}).
Proof.
  intros Hc Hp. unfold notifyAndSave. unfold bind at 1.
  rewrite hasStatusChanged_run. fold (changed s (appId app) cur).
  rewrite Hc. unfold bind at 1. unfold bind at 1.
  rewrite loadPreviousStatuses_run.
  rewrite stored_with_console, load_log_with_console, with_console_app.
  unfold axios_post, attempt, notification in *.
  rewrite Hp. reflexivity.
Qed.

Lemma checkApp_fetch_failed w app s e :
  eval (fetchLatest w app) s = Thrown e ->
  checkApp w app s =
  (Returned tt,
   with_console s
     [LogError ("Error checking " +:+ name app +:+ " status:") e;
      LogBare e]).
Proof.
  intros Hf. unfold checkApp, checkAppTry, try_catch, bind at 1.
  rewrite (fetchLatest_run w app s s), Hf.
  unfold checkAppCatch. eff_unfold. simpl. by rewrite <- app_assoc.
Qed.

Lemma checkApp_fetched w app s cur bn :
  eval (fetchLatest w app) s = Returned (cur, bn) ->
  checkApp w app s =
  match notifyAndSave w app cur bn s with
  | (Returned a, s') => (Returned a, s')
  | (Thrown e, s') => checkAppCatch app e s'
  end.
Proof.
  intros Hf. unfold checkApp, checkAppTry, try_catch, bind at 1.
  rewrite (fetchLatest_run w app s s), Hf. reflexivity.
Qed.

Lemma checkAppCatch_run app e s :
  checkAppCatch app e s =
  (Returned tt,
   with_console s
     [LogError ("Error checking " +:+ name app +:+ " status:") e;
      LogBare e]).
Proof.
  unfold checkAppCatch. eff_unfold. simpl. by rewrite <- app_assoc.
Qed.

(** One iteration never lets an error out, and touches no entry of the
    store but its own. *)
Lemma checkApp_returns w app s : eval (checkApp w app) s = Returned tt.
Proof.
  unfold eval.
  destruct (eval (fetchLatest w app) s) as [[cur bn]|e] eqn:Hf.
  - rewrite (checkApp_fetched _ _ _ _ _ Hf).
    destruct (notifyAndSave w app cur bn s) as [[[]|e] s']; [done|].
    by rewrite checkAppCatch_run.
  - by rewrite (checkApp_fetch_failed _ _ _ _ Hf).
Qed.

Lemma checkApp_stored w app s :
  stored (exec (checkApp w app) s) = stored s
  \/ exists cur, stored (exec (checkApp w app) s)
                 = <[appId app := cur]> (stored s).
Proof.
  unfold exec.
  destruct (eval (fetchLatest w app) s) as [[cur bn]|e] eqn:Hf.
  - rewrite (checkApp_fetched _ _ _ _ _ Hf).
    destruct (changed s (appId app) cur) eqn:Hc.
    + destruct (http_post w (webhookUrl app) (notification w app s cur bn))
        as [[]|e] eqn:Hp.
      * rewrite notifyAndSave_delivered; [|done|by rewrite Hp].
        right. by exists cur.
      * rewrite (notifyAndSave_failed _ _ _ _ _ e); [|done|done].
        rewrite checkAppCatch_run. by left.
    + rewrite notifyAndSave_unchanged; [|done]. right. by exists cur.
  - rewrite (checkApp_fetch_failed _ _ _ _ Hf). by left.
Qed.

Section Loop.
Context {A : Type} (body : A -> Eff unit).
Hypothesis body_returns : forall x s, eval (body x) s = Returned tt.

Lemma for_of_cons_run x l s :
  for_of (x :: l) body s = for_of l body (exec (body x) s).
Proof.
  simpl. unfold bind, exec. specialize (body_returns x s).
  unfold eval in body_returns.
  destruct (body x s) as [[[]|e] s']; simpl in *; done.
Qed.

Lemma for_of_returns l s : eval (for_of l body) s = Returned tt.
Proof.
  revert s. induction l as [|x l IH]; intros s; [done|].
  unfold eval. rewrite for_of_cons_run. apply IH.
Qed.

Lemma for_of_app_exec l1 l2 s :
  exec (for_of (l1 ++ l2) body) s
  = exec (for_of l2 body) (exec (for_of l1 body) s).
Proof.
  revert s. induction l1 as [|x l1 IH]; intros s; [done|].
  unfold exec at 1 3. rewrite <- app_comm_cons, !for_of_cons_run.
  apply IH.
Qed.
End Loop.

(** ** The change check *)

(** C1.  [hasStatusChanged] always returns, leaves the file as it is, and
    its answer is [true] exactly when the loaded store has no record for the
    id, or the record's state differs from the candidate's, or its version
    string differs.  Hence a candidate identical to the stored record is
    unchanged, and so is one that differs from it only in [releaseType] or
    [createdDate]; the build number is not an input of the check at all.
    An iteration that fetched a candidate the check calls unchanged sends no
    webhook request, whatever the build number. *)
Theorem hasStatusChanged_spec (id : string) (cur : AppStatus) (s : Sys) :
  exists (m : StatusStorage) (b : bool),
    eval loadPreviousStatuses s = Returned m
    /\ eval (hasStatusChanged id cur) s = Returned b
    /\ status_file (exec (hasStatusChanged id cur) s) = status_file s
    /\ (b = true <->
        m !! id = None
        \/ exists prev, m !! id = Some prev
             /\ (state prev <> state cur
                 \/ versionString prev <> versionString cur))
    /\ (m !! id = Some cur -> b = false)
    /\ (forall prev, m !! id = Some prev ->
          state prev = state cur ->
          versionString prev = versionString cur ->
          b = false)
    /\ (forall w app bn,
          appId app = id ->
          eval (fetchLatest w app) s = Returned (cur, bn) ->
          b = false ->
          outbox (exec (checkApp w app) s) = outbox s).
Proof.
  exists (stored s), (changed s id cur).
  unfold eval, exec. rewrite loadPreviousStatuses_run, hasStatusChanged_run.
  fold (changed s id cur). cbn [fst snd].
  split; [reflexivity|]. split; [reflexivity|]. split; [reflexivity|].
  split; [split|split; [|split]].
  - unfold changed. destruct (stored s !! id) as [prev|]; [|by left].
    intros Hb. right. exists prev. split; [done|].
    apply orb_true_iff in Hb as [Hb|Hb]; apply negb_true_iff in Hb;
      apply String.eqb_neq in Hb; auto.
  - unfold changed. intros [Hn|(prev & Hp & Hd)]; [by rewrite Hn|].
    rewrite Hp. apply orb_true_iff.
    destruct Hd as [Hd|Hd]; [left|right]; apply negb_true_iff;
      by apply String.eqb_neq.
  - unfold changed. intros ->. by rewrite !String.eqb_refl.
  - unfold changed. intros prev -> -> ->. by rewrite !String.eqb_refl.
  - intros w app bn <- Hf Hc.
    rewrite (checkApp_fetched _ _ _ _ _ Hf).
    by rewrite notifyAndSave_unchanged.
Qed.

(** C3.  When the loaded store has no record for the application's id, the
    change check answers [true] for every candidate, and an iteration whose
    fetch returned a record issues exactly one webhook request: the
    notification composed without a previous status. *)
Theorem first_seen_notifies (w : World) (app : AppConfig) (s : Sys)
    (m : StatusStorage) (cur : AppStatus) (bn : option string) :
  eval loadPreviousStatuses s = Returned m ->
  m !! appId app = None ->
  eval (fetchLatest w app) s = Returned (cur, bn) ->
  (forall candidate,
     eval (hasStatusChanged (appId app) candidate) s = Returned true)
  /\ outbox (exec (checkApp w app) s)
     = (outbox s ++
        [ {| to := webhookUrl app;
             body := webhookPayload w app None cur bn;
             delivered :=
               returned (http_post w (webhookUrl app)
                           (webhookPayload w app None cur bn)) |} ])%list.
Proof.
  unfold eval at 1. rewrite loadPreviousStatuses_run. simpl.
  intros [= <-] Hnone Hf.
  assert (Hc : forall c, changed s (appId app) c = true).
  { intros c. unfold changed. by rewrite Hnone. }
  split.
  - intros c. unfold eval. rewrite hasStatusChanged_run.
    fold (changed s (appId app) c). by rewrite Hc.
  - unfold exec. rewrite (checkApp_fetched _ _ _ _ _ Hf).
    destruct (http_post w (webhookUrl app) (notification w app s cur bn))
      as [[]|e] eqn:Hp.
    + rewrite notifyAndSave_delivered; [|done|by rewrite Hp]. simpl.
      unfold attempt, notification in *. rewrite Hnone in *. by rewrite Hp.
    + rewrite (notifyAndSave_failed _ _ _ _ _ e); [|done|done].
      rewrite checkAppCatch_run. simpl.
      unfold attempt, notification in *. rewrite Hnone in *. by rewrite Hp.
Qed.

Lemma first_seen_notifies_witness :
  let w := sample_world (Returned (sample_response "IN_REVIEW" "1.0"))
                        (Returned tt) in
  let cur := sample_status "IN_REVIEW" "1.0" in
  (forall candidate,
     eval (hasStatusChanged (appId sample_app) candidate) empty_store
     = Returned true)
  /\ outbox (exec (checkApp w sample_app) empty_store)
     = (outbox empty_store ++
        [ {| to := webhookUrl sample_app;
             body := webhookPayload w sample_app None cur None;
             delivered :=
               returned (http_post w (webhookUrl sample_app)
                           (webhookPayload w sample_app None cur None)) |} ])%list.
Proof.
  intros w cur.
  apply (first_seen_notifies w sample_app empty_store ∅ cur None);
    reflexivity.
Defined.

(** ** Delivery failures *)

(** C2, refuted.  With an empty store, a fetch that returns a record and a
    webhook that rejects the request, the iteration ends in its [catch]
    block before [savePreviousStatus] is reached: the store still has no
    record for the application. *)
Lemma persistence_after_failed_delivery_fails :
  ~ persistence_after_failed_delivery.
Proof.
  intros H.
  pose (w := sample_world (Returned (sample_response "IN_REVIEW" "1.0"))
                          (Thrown (AxiosError (Some 500%nat)))).
  destruct (H w w sample_app empty_store
              (sample_status "IN_REVIEW" "1.0") None None
              (AxiosError (Some 500%nat))
              eq_refl eq_refl (fun _ => eq_refl) eq_refl)
    as [(m & Hm & Hl) _].
  vm_compute in Hm. injection Hm as <-. vm_compute in Hl. discriminate.
Qed.

(** C2, amended.  When the fetch returns a record, the check finds a change
    and the webhook request fails, the iteration logs the error and leaves
    the status file exactly as it was: the record is not persisted.  A later
    pass that fetches the same record finds the change again and sends the
    notification again.  Once such a request succeeds the store holds the
    record, and a further pass fetching the same record sends nothing. *)
Theorem failed_delivery_is_retried (w : World) (app : AppConfig) (s : Sys)
    (m : StatusStorage) (cur : AppStatus) (bn : option string) (e : Error) :
  eval loadPreviousStatuses s = Returned m ->
  eval (fetchLatest w app) s = Returned (cur, bn) ->
  eval (hasStatusChanged (appId app) cur) s = Returned true ->
  http_post w (webhookUrl app) (webhookPayload w app (m !! appId app) cur bn)
    = Thrown e ->
  let s1 := exec (checkApp w app) s in
  status_file s1 = status_file s
  /\ eval loadPreviousStatuses s1 = Returned m
  /\ (exists entries,
        console s1
        = (console s ++ entries ++
           [LogError ("Error checking " +:+ name app +:+ " status:") e;
            LogBare e])%list)
  /\ forall (w' : World) (bn' : option string),
       eval (fetchLatest w' app) s1 = Returned (cur, bn') ->
       let p' := webhookPayload w' app (m !! appId app) cur bn' in
       let s2 := exec (checkApp w' app) s1 in
       eval (hasStatusChanged (appId app) cur) s1 = Returned true
       /\ outbox s2
          = (outbox s1 ++
             [ {| to := webhookUrl app; body := p';
                  delivered := returned (http_post w' (webhookUrl app) p')
               |} ])%list
       /\ (returned (http_post w' (webhookUrl app) p') = true ->
           eval loadPreviousStatuses s2 = Returned (<[appId app := cur]> m)
           /\ forall (w'' : World) (bn'' : option string),
                eval (fetchLatest w'' app) s2 = Returned (cur, bn'') ->
                outbox (exec (checkApp w'' app) s2) = outbox s2).
Proof.
  intros Hm Hf Hc Hp s1.
  unfold eval in Hm. rewrite loadPreviousStatuses_run in Hm.
  simpl in Hm. injection Hm as <-.
  unfold eval in Hc. rewrite hasStatusChanged_run in Hc.
  fold (changed s (appId app) cur) in Hc. simpl in Hc. injection Hc as Hc.
  fold (notification w app s cur bn) in Hp.
  assert (Hs1 : exec (checkApp w app) s
    = with_console
        {| status_file := status_file s;
           console := console s ++ load_log s ++ load_log s;
           outbox := outbox s ++ [attempt w app (notification w app s cur bn)]
        |}
        [LogError ("Error checking " +:+ name app +:+ " status:") e;
         LogBare e]).
  { unfold exec. rewrite (checkApp_fetched _ _ _ _ _ Hf).
    rewrite (notifyAndSave_failed _ _ _ _ _ e Hc Hp).
    by rewrite checkAppCatch_run. }
  subst s1. rewrite Hs1. clear Hs1.
  set (s1 := with_console _ _).
  assert (Hst : stored s1 = stored s) by reflexivity.
  assert (Hc1 : changed s1 (appId app) cur = true)
    by (unfold changed; rewrite Hst; exact Hc).
  split; [reflexivity|]. split.
  { unfold eval. rewrite loadPreviousStatuses_run. simpl. by rewrite Hst. }
  split.
  { exists (load_log s ++ load_log s)%list. subst s1. simpl.
    by rewrite <- !app_assoc. }
  intros w' bn' Hf' p' s2. split.
  { unfold eval. rewrite hasStatusChanged_run.
    fold (changed s1 (appId app) cur). by rewrite Hc1. }
  assert (Hn : notification w' app s1 cur bn' = p')
    by (unfold notification; by rewrite Hst).
  destruct (http_post w' (webhookUrl app) p') as [[]|e'] eqn:Hp'.
  - assert (Hs2 : s2 =
      {| status_file := Some (Encoded (<[appId app := cur]> (stored s)));
         console := console s1 ++ load_log s1 ++ load_log s1 ++ load_log s1;
         outbox := outbox s1 ++
           [ {| to := webhookUrl app; body := p'; delivered := true |} ] |}).
    { subst s2. unfold exec. rewrite (checkApp_fetched _ _ _ _ _ Hf').
      rewrite notifyAndSave_delivered; [|done|by rewrite Hn, Hp'].
      rewrite Hn. unfold attempt. by rewrite Hp'. }
    clearbody s2. subst s2. split; [reflexivity|]. intros _. split.
    { unfold eval. by rewrite loadPreviousStatuses_run. }
    intros w'' bn'' Hf''. unfold exec.
    rewrite (checkApp_fetched _ _ _ _ _ Hf'').
    rewrite notifyAndSave_unchanged; [done|].
    unfold changed, stored. simpl. rewrite lookup_insert_eq.
    by rewrite !String.eqb_refl.
  - assert (Hs2 : outbox s2 =
      (outbox s1 ++
       [ {| to := webhookUrl app; body := p'; delivered := false |} ])%list).
    { subst s2. unfold exec. rewrite (checkApp_fetched _ _ _ _ _ Hf').
      rewrite (notifyAndSave_failed _ _ _ _ _ e'); [|done|by rewrite Hn].
      rewrite checkAppCatch_run, Hn. unfold attempt. by rewrite Hp'. }
    split; [exact Hs2|]. simpl. done.
Qed.

Lemma failed_delivery_is_retried_witness :
  let failure := AxiosError (Some 500%nat) in
  let w := sample_world (Returned (sample_response "IN_REVIEW" "1.0"))
                        (Thrown failure) in
  let cur := sample_status "IN_REVIEW" "1.0" in
  let s1 := exec (checkApp w sample_app) empty_store in
  status_file s1 = status_file empty_store
  /\ eval loadPreviousStatuses s1 = Returned ∅
  /\ eval (hasStatusChanged (appId sample_app) cur) s1 = Returned true
  /\ length (outbox (exec (checkApp w sample_app) s1)) = 2%nat.
Proof.
  intros failure w cur s1.
  destruct (failed_delivery_is_retried w sample_app empty_store ∅ cur None
              failure eq_refl eq_refl eq_refl eq_refl)
    as (Hfile & Hload & _ & Hnext).
  destruct (Hnext w None eq_refl) as (Hchanged & Hout & _).
  split; [exact Hfile|]. split; [exact Hload|]. split; [exact Hchanged|].
  fold s1 in Hout. rewrite Hout. reflexivity.
Defined.

(** ** The composer *)

Lemma displayVersion_build_relevant cur bn :
  state cur ∈ build_relevant_states ->
  displayVersion cur bn
  = versionString cur +:+ " (" +:+ template bn +:+ ")".
Proof.
  unfold build_relevant_states, displayVersion.
  rewrite !elem_of_cons, elem_of_nil.
  intros [->|[->|[->|[->|[]]]]]; reflexivity.
Qed.

Lemma displayVersion_other cur bn :
  state cur ∉ build_relevant_states ->
  displayVersion cur bn = versionString cur.
Proof.
  unfold build_relevant_states, displayVersion.
  rewrite !elem_of_cons, elem_of_nil. intros Hn.
  repeat
    match goal with
    | |- context [String.eqb ?a ?b] =>
        destruct (String.eqb_spec a b) as [Heq|_];
        [exfalso; apply Hn; rewrite Heq; tauto|]
    end.
  reflexivity.
Qed.

(** C4.  The second field of every composed notification is the current
    version.  In a build-relevant state its value is the version string
    followed by the build number in parentheses, so version 1.2.0 with
    build 45 gives "1.2.0 (45)"; in every other state, REJECTED among
    them, it is the version string alone, whatever the build number is. *)
Theorem version_field_rendering (w : World) (app : AppConfig)
    (prev : option AppStatus) (cur : AppStatus) (bn : option string) :
  exists e v,
    embeds (webhookPayload w app prev cur bn) = [e]
    /\ em_fields e !! 1%nat
       = Some {| ef_name := "현재 버전"; ef_value := v; ef_inline := true |}
    /\ (state cur ∈ build_relevant_states ->
        forall b, bn = Some b ->
          v = versionString cur +:+ " (" +:+ b +:+ ")")
    /\ (state cur ∉ build_relevant_states -> v = versionString cur)
    /\ (state cur = "IN_REVIEW" -> versionString cur = "1.2.0" ->
        bn = Some "45" -> v = "1.2.0 (45)")
    /\ (state cur = "REJECTED" -> versionString cur = "1.2.0" ->
        v = "1.2.0").
Proof.
  eexists _, (displayVersion cur bn). split; [reflexivity|].
  split; [by destruct prev as [p|]; simpl; [case_match|]|].
  split; [|split; [|split]].
  - intros Hin b ->. by rewrite displayVersion_build_relevant.
  - apply displayVersion_other.
  - intros Hs Hv ->. rewrite displayVersion_build_relevant.
    + by rewrite Hv.
    + rewrite Hs. unfold build_relevant_states. set_solver.
  - intros Hs Hv. rewrite displayVersion_other; [done|].
    rewrite Hs. unfold build_relevant_states.
    rewrite !elem_of_cons, elem_of_nil. intros [?|[?|[?|[?|[]]]]]; done.
Qed.

(** C10.  In a build-relevant state, a notification composed without a
    build number shows the text "undefined" in parentheses after the version
    string; and the build number is absent whenever the fetched version
    carries no relationships, no build, no build data, or the response has
    no [included] array. *)
Theorem missing_build_renders_undefined (w : World) (app : AppConfig)
    (prev : option AppStatus) (cur : AppStatus) :
  (state cur ∈ build_relevant_states ->
   exists e,
     embeds (webhookPayload w app prev cur None) = [e]
     /\ em_fields e !! 1%nat
        = Some {| ef_name := "현재 버전";
                  ef_value := versionString cur +:+ " (undefined)";
                  ef_inline := true |})
  /\ forall (latest : Api.Version) (response : Api.Response),
       Api.relationships latest = None
       \/ Api.relationships latest = Some {| Api.build := None |}
       \/ Api.relationships latest
          = Some {| Api.build := Some {| Api.build_data := None |} |}
       \/ Api.included response = None ->
       buildNumber latest response = None.
Proof.
  split.
  - intros Hin. eexists. split; [reflexivity|].
    assert (Hv : displayVersion cur None
                 = versionString cur +:+ " (undefined)")
      by (by rewrite displayVersion_build_relevant).
    destruct prev as [p|]; simpl; [case_match|]; simpl; by rewrite Hv.
  - intros latest response H. unfold buildNumber.
    destruct H as [-> | [-> | [-> | ->]]]; simpl; try reflexivity.
    by repeat case_match.
Qed.

Lemma missing_build_renders_undefined_witness :
  exists e,
    embeds (webhookPayload
              (sample_world (Returned (sample_response "IN_REVIEW" "1.2.0"))
                            (Returned tt))
              sample_app None (sample_status "IN_REVIEW" "1.2.0") None)
    = [e]
    /\ em_fields e !! 1%nat
       = Some {| ef_name := "현재 버전"; ef_value := "1.2.0 (undefined)";
                 ef_inline := true |}.
Proof.
  apply (missing_build_renders_undefined
           (sample_world (Returned (sample_response "IN_REVIEW" "1.2.0"))
                         (Returned tt))
           sample_app None (sample_status "IN_REVIEW" "1.2.0")).
  unfold build_relevant_states. simpl.
  do 3 apply list_elem_of_further. apply list_elem_of_here.
Defined.

(** C5.  Each of the three lookups is a total function of the state string
    whose result is never empty: the emoji and the label are non-empty
    strings and the colour is one of six positive codes.  A string outside
    the enumeration gets the values of the default branches. *)
Theorem lookups_total (st : string) :
  getStateEmoji st <> ""
  /\ getStateMessage st <> ""
  /\ (0 < getStateColor st)%Z
  /\ (getStateColor st
        ∈ [0x36a64f; 0xdc3545; 0xffc107; 0x0088cc; 0x6f42c1; 0x95a5a6]%Z)
  /\ (st ∉ lifecycle_states ->
      getStateEmoji st = "❓"
      /\ getStateMessage st = "알 수 없는 상태"
      /\ getStateColor st = 0x95a5a6%Z).
Proof.
  split; [unfold getStateEmoji; repeat case_match; done|].
  split; [unfold getStateMessage; repeat case_match; done|].
  split; [unfold getStateColor; repeat case_match; done|].
  split; [unfold getStateColor; repeat case_match; set_solver|].
  unfold lifecycle_states. intros Hn.
  unfold getStateEmoji, getStateMessage, getStateColor.
  repeat
    match goal with
    | |- context [String.eqb ?a ?b] =>
        destruct (String.eqb_spec a b) as [Heq|_];
        [exfalso; apply Hn; rewrite Heq; set_solver|]
    end.
  done.
Qed.

(** C6.  The title of a composed notification: with a previous record,
    the version phrasing when only the version string differs, the state
    phrasing when only the state differs, the phrasing naming both when both
    differ; without a previous record, the state phrasing. *)
Theorem title_selection (w : World) (app : AppConfig)
    (prev : option AppStatus) (cur : AppStatus) (bn : option string) :
  exists e t,
    embeds (webhookPayload w app prev cur bn) = [e]
    /\ em_title e = t
    /\ (forall p, prev = Some p ->
          versionString p <> versionString cur -> state p = state cur ->
          t = name app +:+ " 버전이 변경되었습니다!")
    /\ (forall p, prev = Some p ->
          versionString p = versionString cur -> state p <> state cur ->
          t = name app +:+ " 상태가 변경되었습니다!")
    /\ (forall p, prev = Some p ->
          versionString p <> versionString cur -> state p <> state cur ->
          t = name app +:+ " 버전과 상태가 변경되었습니다!")
    /\ (prev = None -> t = name app +:+ " 상태가 변경되었습니다!").
Proof.
  eexists _, (titleText app prev cur).
  split; [reflexivity|]. split; [reflexivity|].
  unfold titleText, versionChanged, stateChanged.
  split; [|split; [|split]].
  - intros p -> Hv Hs. apply String.eqb_neq in Hv. rewrite Hv, Hs.
    by rewrite String.eqb_refl.
  - intros p -> Hv Hs. apply String.eqb_neq in Hs. rewrite Hv, Hs.
    by rewrite String.eqb_refl.
  - intros p -> Hv Hs. apply String.eqb_neq in Hv, Hs. by rewrite Hv, Hs.
  - by intros ->.
Qed.

(** C7.  The field list of a composed notification, in order: current
    state (emoji, a space, label), current version, release type, then the
    previous version and the submission time when a previous record exists
    and its version string differs, and the submission time alone
    otherwise.  So it has five fields in the first case and four in every
    other. *)
Theorem field_list (w : World) (app : AppConfig)
    (prev : option AppStatus) (cur : AppStatus) (bn : option string) :
  exists e,
    embeds (webhookPayload w app prev cur bn) = [e]
    /\ em_fields e
       = ([ {| ef_name := "현재 상태";
               ef_value := getStateEmoji (state cur) +:+ " "
                           +:+ getStateMessage (state cur);
               ef_inline := true |};
            {| ef_name := "현재 버전";
               ef_value := displayVersion cur bn;
               ef_inline := true |};
            {| ef_name := "버전 출시 타입";
               ef_value := getReleaseTypeMessage (releaseType cur);
               ef_inline := true |} ]
          ++ match prev with
             | Some p =>
                 if bool_decide (versionString p <> versionString cur)
                 then [ {| ef_name := "이전 버전";
                           ef_value := versionString p;
                           ef_inline := true |} ]
                 else []
             | None => []
             end
          ++ [ {| ef_name := "제출 일시";
                  ef_value := submittedDate w cur;
                  ef_inline := true |} ])%list
    /\ ((exists p, prev = Some p /\ versionString p <> versionString cur) ->
        length (em_fields e) = 5%nat)
    /\ (~ (exists p, prev = Some p /\ versionString p <> versionString cur) ->
        length (em_fields e) = 4%nat).
Proof.
  eexists. split; [reflexivity|]. simpl. unfold fields, versionChanged.
  destruct prev as [p|].
  - destruct (String.eqb_spec (versionString p) (versionString cur))
      as [Heq|Hne]; simpl.
    + rewrite bool_decide_eq_false_2 by (intros H; by apply H).
      split; [reflexivity|]. split; [|done].
      intros (p' & [= <-] & Hne). done.
    + rewrite bool_decide_eq_true_2 by done.
      split; [reflexivity|]. split; [done|].
      intros Hn. exfalso. apply Hn. by exists p.
  - simpl. split; [reflexivity|]. split; [|done].
    intros (p & Hp & _). done.
Qed.

(** ** The store under failures *)

(** C8.  [loadPreviousStatuses] returns a mapping from every state of the
    file.  A missing file is created by the constructor with the empty
    mapping, which the next load returns.  A file that cannot be read, or
    whose text the parser rejects, makes the load log the error and return
    the empty mapping, leaving the file as it is.  A save that follows such
    a load returns normally and replaces the file by the encoding of the
    mapping holding the saved entry alone, which the next load returns. *)
Theorem load_fails_open :
  (forall s, exists m, eval loadPreviousStatuses s = Returned m)
  /\ (forall s, status_file s = None ->
        let s' := exec newAppStatusService s in
        status_file s' = Some (JSON_stringify ∅)
        /\ eval loadPreviousStatuses s' = Returned ∅
        /\ console (exec loadPreviousStatuses s') = console s)
  /\ (forall s, status_file s = None ->
        eval loadPreviousStatuses s = Returned ∅
        /\ status_file (exec loadPreviousStatuses s) = None
        /\ console (exec loadPreviousStatuses s)
           = (console s ++
              [LogError "상태 파일을 읽는 중 오류가 발생했습니다:"
                        (SystemError "ENOENT")])%list)
  /\ (forall s raw, status_file s = Some (Malformed raw) ->
        eval loadPreviousStatuses s = Returned ∅
        /\ status_file (exec loadPreviousStatuses s) = Some (Malformed raw)
        /\ console (exec loadPreviousStatuses s)
           = (console s ++
              [LogError "상태 파일을 읽는 중 오류가 발생했습니다:"
                        (SystemError "SyntaxError")])%list)
  /\ (forall s raw appId status, status_file s = Some (Malformed raw) ->
        let s1 := exec loadPreviousStatuses s in
        let s2 := exec (savePreviousStatus appId status) s1 in
        eval (savePreviousStatus appId status) s1 = Returned tt
        /\ status_file s2 = Some (JSON_stringify {[appId := status]})
        /\ eval loadPreviousStatuses s2 = Returned {[appId := status]}
        /\ ({[appId := status]} : StatusStorage) !! appId = Some status).
Proof.
  split; [|split; [|split; [|split]]].
  - intros s. exists (stored s). unfold eval.
    by rewrite loadPreviousStatuses_run.
  - intros s Hs s'. subst s'. unfold newAppStatusService, eval, exec.
    rewrite initializeStatusFile_run, Hs. cbn [fst snd].
    rewrite loadPreviousStatuses_run. simpl. by rewrite app_nil_r.
  - intros s Hs. unfold eval, exec. rewrite loadPreviousStatuses_run.
    unfold stored, load_log. by rewrite Hs.
  - intros s raw Hs. unfold eval, exec. rewrite loadPreviousStatuses_run.
    unfold stored, load_log. by rewrite Hs.
  - intros s raw appId status Hs s1 s2. subst s1 s2. unfold eval, exec.
    rewrite loadPreviousStatuses_run. cbn [fst snd].
    rewrite savePreviousStatus_run. cbn [fst snd].
    rewrite loadPreviousStatuses_run. unfold stored. simpl. rewrite Hs.
    rewrite insert_empty. by rewrite lookup_singleton_eq.
Qed.

(** C9.  Every iteration of the loop returns normally, so the loop goes
    through the whole list whatever happened to any application: an error
    thrown anywhere in the [try] block is logged by the [catch] block of the
    same iteration.  When the fetch fails the iteration writes nothing to
    the file and sends nothing.  No iteration changes the entry of another
    application, and [savePreviousStatus] replaces the entry of its own id
    and keeps every other entry. *)
Theorem failures_are_isolated (w : World) :
  (forall app s, eval (checkApp w app) s = Returned tt)
  /\ (forall apps s, eval (checkAppStatus w apps) s = Returned tt)
  /\ (forall pre app post s,
        exec (for_of (pre ++ app :: post) (checkApp w)) s
        = exec (for_of post (checkApp w))
            (exec (checkApp w app) (exec (for_of pre (checkApp w)) s)))
  /\ (forall app s e,
        eval (checkAppTry w app) s = Thrown e ->
        console (exec (checkApp w app) s)
        = (console (exec (checkAppTry w app) s) ++
           [LogError ("Error checking " +:+ name app +:+ " status:") e;
            LogBare e])%list)
  /\ (forall app s e,
        eval (fetchLatest w app) s = Thrown e ->
        let s' := exec (checkApp w app) s in
        status_file s' = status_file s
        /\ outbox s' = outbox s
        /\ console s'
           = (console s ++
              [LogError ("Error checking " +:+ name app +:+ " status:") e;
               LogBare e])%list)
  /\ (forall app s other m m',
        other <> appId app ->
        eval loadPreviousStatuses s = Returned m ->
        eval loadPreviousStatuses (exec (checkApp w app) s) = Returned m' ->
        m' !! other = m !! other)
  /\ (forall appId status s m,
        eval loadPreviousStatuses s = Returned m ->
        eval loadPreviousStatuses (exec (savePreviousStatus appId status) s)
        = Returned (<[appId := status]> m)
        /\ forall other, other <> appId ->
             (<[appId := status]> m) !! other = m !! other).
Proof.
  split; [apply checkApp_returns|].
  split.
  { intros apps s. unfold checkAppStatus. case_match; [done|].
    apply for_of_returns, checkApp_returns. }
  split.
  { intros pre app post s.
    rewrite for_of_app_exec by apply checkApp_returns.
    unfold exec at 1. rewrite for_of_cons_run by apply checkApp_returns.
    reflexivity. }
  split.
  { intros app s e He. unfold exec, checkApp, try_catch.
    unfold eval in He. destruct (checkAppTry w app s) as [o s'].
    simpl in He. subst o. by rewrite checkAppCatch_run. }
  split.
  { intros app s e Hf s'. subst s'. unfold exec.
    by rewrite (checkApp_fetch_failed _ _ _ _ Hf). }
  split.
  { intros app s other m m' Hne. unfold eval.
    rewrite !loadPreviousStatuses_run. simpl. intros [= <-] [= <-].
    destruct (checkApp_stored w app s) as [->|[cur ->]]; [done|].
    by rewrite lookup_insert_ne. }
  intros appId status s m. unfold eval, exec.
  rewrite savePreviousStatus_run, !loadPreviousStatuses_run. simpl.
  intros [= <-]. split; [done|].
  intros other Hne. by rewrite lookup_insert_ne.
Qed.

(** ** Worked examples *)

Example build_number_found :
  let latest :=
    {| Api.type := "appStoreVersions"; Api.id := "v-1";
       Api.attributes := Api.attributes (sample_version "IN_REVIEW" "1.2.0");
       Api.relationships :=
         Some {| Api.build :=
                   Some {| Api.build_data :=
                             Some {| Api.ref_type := "builds";
                                     Api.ref_id := "b-7" |} |} |} |} in
  let response :=
    {| Api.data := [latest];
       Api.included :=
         Some [ {| Api.inc_type := "builds"; Api.inc_id := "b-7";
                   Api.inc_attributes := {| Api.version := Some "45" |} |} ]
    |} in
  buildNumber latest response = Some "45"
  /\ displayVersion (currentStatus latest) (buildNumber latest response)
     = "1.2.0 (45)".
Proof. split; reflexivity. Qed.

Example rejected_shows_no_build :
  displayVersion (sample_status "REJECTED" "1.2.0") (Some "45") = "1.2.0".
Proof. reflexivity. Qed.

Example titles :
  let prior := Some (sample_status "IN_REVIEW" "1.0") in
  titleText sample_app prior (sample_status "IN_REVIEW" "1.1")
    = "Demo 버전이 변경되었습니다!"
  /\ titleText sample_app prior (sample_status "ACCEPTED" "1.0")
     = "Demo 상태가 변경되었습니다!"
  /\ titleText sample_app prior (sample_status "ACCEPTED" "1.1")
     = "Demo 버전과 상태가 변경되었습니다!"
  /\ titleText sample_app None (sample_status "ACCEPTED" "1.1")
     = "Demo 상태가 변경되었습니다!".
Proof. repeat split. Qed.

Example unknown_state_defaults :
  getStateEmoji "SOMETHING_NEW" = "❓"
  /\ getStateMessage "SOMETHING_NEW" = "알 수 없는 상태"
  /\ getStateColor "SOMETHING_NEW" = 0x95a5a6%Z.
Proof. repeat split. Qed.

Example corrupt_file_recovers :
  let status := sample_status "IN_REVIEW" "1.0" in
  eval loadPreviousStatuses corrupt_store = Returned ∅
  /\ status_file (exec (savePreviousStatus "6446012345" status) corrupt_store)
     = Some (Encoded {[ "6446012345" := status ]}).
Proof. split; reflexivity. Qed.

(** Two passes over the same answer: one request when the webhook accepts
    it, two when it rejects it. *)
Example two_passes :
  let answer := Returned (sample_response "IN_REVIEW" "1.0") in
  let pass w := checkAppStatus w [sample_app] in
  let accepted := sample_world answer (Returned tt) in
  let rejected := sample_world answer (Thrown (AxiosError (Some 500%nat))) in
  map delivered (outbox (exec (pass accepted) (exec (pass accepted)
                                                    empty_store)))
    = [true]
  /\ map delivered (outbox (exec (pass rejected) (exec (pass rejected)
                                                       empty_store)))
     = [false; false].
Proof. split; vm_compute; reflexivity. Qed.

(** * Further properties of the service *)

(** ** Release type labels *)

(** X1.  Every release type label is non-empty and ends with the same
    word; a release type other than the three known ones is echoed in front
    of that word. *)
Theorem release_label_shape (releaseType : string) :
  (exists prefix, getReleaseTypeMessage releaseType = prefix +:+ " 배포")
  /\ getReleaseTypeMessage releaseType <> ""
  /\ (releaseType ∉ ["MANUAL"; "AFTER_APPROVAL"; "SCHEDULED"] ->
      getReleaseTypeMessage releaseType = releaseType +:+ " 배포").
Proof.
  unfold getReleaseTypeMessage. split; [|split].
  - repeat case_match;
      [by exists "📤 수동" | by exists "🚀 승인 후 자동" | by exists "⏰ 예약"
      | by exists releaseType].
  - repeat case_match; try done. by destruct releaseType.
  - intros Hn.
    repeat
      match goal with
      | |- context [String.eqb ?a ?b] =>
          destruct (String.eqb_spec a b) as [Heq|_];
          [exfalso; apply Hn; rewrite Heq; set_solver|]
      end.
    reflexivity.
Qed.

(** ** The store *)

(** X2.  The constructor never replaces a status file that exists, whatever
    its text; it creates the file with the empty mapping only when there is
    none, so the file exists afterwards, and running it again changes
    nothing.  It writes nothing to the console and sends nothing. *)
Theorem constructor_keeps_existing_file (s : Sys) :
  let s' := exec newAppStatusService s in
  eval newAppStatusService s = Returned tt
  /\ is_Some (status_file s')
  /\ (forall text, status_file s = Some text -> s' = s)
  /\ (status_file s = None -> status_file s' = Some (JSON_stringify ∅))
  /\ exec newAppStatusService s' = s'
  /\ console s' = console s
  /\ outbox s' = outbox s.
Proof.
  unfold newAppStatusService, eval, exec.
  rewrite initializeStatusFile_run. cbn [fst snd].
  destruct (status_file s) as [text|] eqn:Hs.
  - rewrite initializeStatusFile_run, Hs. cbn [snd].
    repeat split; try done; try (by rewrite Hs).
  - rewrite initializeStatusFile_run. cbn [snd status_file].
    repeat split; try done; try (by eexists).
Qed.

(** X3.  Saving a record and then checking a candidate against it: the save
    returns normally from every state of the file, the saved record itself
    is reported unchanged, and any candidate is reported changed exactly
    when its state or its version string differs from the saved one. *)
Theorem save_then_check (id : string) (status : AppStatus) (s : Sys) :
  let s' := exec (savePreviousStatus id status) s in
  eval (savePreviousStatus id status) s = Returned tt
  /\ eval (hasStatusChanged id status) s' = Returned false
  /\ forall candidate,
       eval (hasStatusChanged id candidate) s'
       = Returned (negb (state status =? state candidate)
                   || negb (versionString status
                            =? versionString candidate)).
Proof.
  unfold eval, exec. rewrite savePreviousStatus_run. cbn [fst snd].
  split; [reflexivity|].
  assert (H : forall candidate,
    (hasStatusChanged id candidate
       {| status_file := Some (Encoded (<[id:=status]> (stored s)));
          console := console s ++ load_log s;
          outbox := outbox s |}).1
    = Returned (negb (state status =? state candidate)
                || negb (versionString status =? versionString candidate))).
  { intros candidate. rewrite hasStatusChanged_run. unfold stored.
    cbn [fst status_file]. by rewrite lookup_insert_eq. }
  split; [|exact H]. rewrite H. by rewrite !String.eqb_refl.
Qed.


(** ** One iteration *)

(** X5.  An iteration that fetches a record with the state and version
    string of the stored one sends nothing, and still writes the fetched
    record over the stored one: a new release type or creation date
    reaches the file without a notification.  When the fetched record is
    the stored one the file keeps its text. *)
Theorem unchanged_fetch_refreshes_record (w : World) (app : AppConfig)
    (s : Sys) (m : StatusStorage) (prev cur : AppStatus)
    (bn : option string) :
  eval loadPreviousStatuses s = Returned m ->
  m !! appId app = Some prev ->
  state prev = state cur ->
  versionString prev = versionString cur ->
  eval (fetchLatest w app) s = Returned (cur, bn) ->
  let s' := exec (checkApp w app) s in
  outbox s' = outbox s
  /\ console s' = console s
  /\ status_file s' = Some (JSON_stringify (<[appId app := cur]> m))
  /\ eval loadPreviousStatuses s' = Returned (<[appId app := cur]> m)
  /\ (prev = cur -> status_file s' = status_file s).
Proof.
  intros Hm Hprev Hst Hvs Hf s'. subst s'.
  unfold eval in Hm. rewrite loadPreviousStatuses_run in Hm.
  cbn [fst] in Hm. injection Hm as <-.
  assert (Hfile : status_file s = Some (Encoded (stored s))).
  { unfold stored in *. destruct (status_file s) as [[raw|m]|]; try done. }
  assert (Hlog : load_log s = []) by (unfold load_log; by rewrite Hfile).
  assert (Hc : changed s (appId app) cur = false).
  { unfold changed. rewrite Hprev, Hst, Hvs. by rewrite !String.eqb_refl. }
  unfold exec, eval. rewrite (checkApp_fetched _ _ _ _ _ Hf).
  rewrite (notifyAndSave_unchanged _ _ _ _ _ Hc), Hlog.
  cbn [snd outbox console status_file]. rewrite !app_nil_r.
  split; [done|]. split; [done|]. split; [done|]. split.
  - by rewrite loadPreviousStatuses_run.
  - intros ->. by rewrite insert_id, Hfile.
Qed.

Lemma unchanged_fetch_refreshes_record_witness :
  let w := sample_world (Returned (sample_response "IN_REVIEW" "1.0"))
                        (Returned tt) in
  let prev :=
    {| state := "IN_REVIEW"; createdDate := None; versionString := "1.0";
       releaseType := "SCHEDULED" |} in
  let s :=
    {| status_file := Some (Encoded {[ "6446012345" := prev ]});
       console := []; outbox := [] |} in
  outbox (exec (checkApp w sample_app) s) = []
  /\ eval loadPreviousStatuses (exec (checkApp w sample_app) s)
     = Returned {[ "6446012345" := sample_status "IN_REVIEW" "1.0" ]}.
Proof.
  intros w prev s.
  destruct (unchanged_fetch_refreshes_record w sample_app s
              {[ "6446012345" := prev ]} prev
              (sample_status "IN_REVIEW" "1.0") None
              eq_refl eq_refl eq_refl eq_refl eq_refl)
    as (Hout & _ & _ & Hload & _).
  split; [exact Hout|]. rewrite Hload. reflexivity.
Defined.

(** ** The pass *)

(** X6.  When one of the three credentials is unset or empty,
    [checkAppStatus] writes one line to the console and returns: it does
    not touch the status file and sends nothing, whatever the list of
    applications is. *)
Theorem missing_credentials_skip_the_pass (w : World)
    (apps : list AppConfig) (s : Sys) :
  truthy (env_key_id w) = false
  \/ truthy (env_issuer_id w) = false
  \/ truthy (env_private_key w) = false ->
  checkAppStatus w apps s
  = (Returned tt,
     {| status_file := status_file s;
        console :=
          console s ++
          [LogText "App Store Connect API 인증 정보가 없습니다."];
        outbox := outbox s |}).
Proof.
  intros H. unfold checkAppStatus.
  assert (Hg : negb (truthy (env_key_id w))
               || negb (truthy (env_issuer_id w))
               || negb (truthy (env_private_key w)) = true).
  { destruct H as [-> | [-> | ->]]; simpl;
      [done | by rewrite orb_true_r | by rewrite orb_true_r]. }
  by rewrite Hg.
Qed.

Lemma missing_credentials_skip_the_pass_witness :
  let w :=
    {| env_key_id := Some "KEY"; env_issuer_id := Some "";
       env_private_key := None;
       jwt_sign := fun _ _ _ => Returned "token";
       http_get := fun _ _ =>
                     Returned (sample_response "IN_REVIEW" "1.0");
       http_post := fun _ _ => Returned tt;
       dayjs_format := fun d => d;
       date_now_iso := "2024-05-01T10:00:00.000Z" |} in
  checkAppStatus w [sample_app] empty_store
  = (Returned tt,
     {| status_file := status_file empty_store;
        console := [LogText "App Store Connect API 인증 정보가 없습니다."];
        outbox := [] |}).
Proof.
  intros w.
  apply (missing_credentials_skip_the_pass w [sample_app] empty_store).
  right. left. reflexivity.
Defined.

(** ** The fetch *)

Lemma filter_first_match {A} (f : A -> bool) (pre post : list A) (v : A) :
  Forall (fun x => f x = false) pre ->
  f v = true ->
  List.filter f (pre ++ v :: post) = v :: List.filter f post.
Proof.
  intros Hpre Hv. induction Hpre as [|x pre Hx _ IH]; simpl.
  - by rewrite Hv.
  - by rewrite Hx.
Qed.

Lemma filter_no_match {A} (f : A -> bool) (l : list A) :
  Forall (fun x => f x = false) l -> List.filter f l = [].
Proof.
  intros H. induction H as [|x l Hx _ IH]; simpl; [done|]. by rewrite Hx.
Qed.

(** X7.  How the fetch fails.  An error of the token signer or of the GET
    request is the error of the fetch; a response whose [data] is empty
    raises the error about missing version information; a response with
    versions none of which is for the IOS platform raises the error about
    missing iOS version information.  The fetch never changes the state. *)
Theorem fetch_failures (w : World) (app : AppConfig) (s : Sys) :
  exec (fetchLatest w app) s = s
  /\ (forall e,
        jwt_sign w (env_key_id w) (env_issuer_id w) (env_private_key w)
        = Thrown e ->
        eval (fetchLatest w app) s = Thrown e)
  /\ (forall token,
        jwt_sign w (env_key_id w) (env_issuer_id w) (env_private_key w)
        = Returned token ->
        (forall e,
           http_get w (versionsUrl app) token = Thrown e ->
           eval (fetchLatest w app) s = Thrown e)
        /\ (forall response,
              http_get w (versionsUrl app) token = Returned response ->
              (Api.data response = [] ->
               eval (fetchLatest w app) s
               = Thrown (JsError "앱 버전 정보를 찾을 수 없습니다."))
              /\ (Api.data response <> [] ->
                  Forall (fun item =>
                            Api.platform (Api.attributes item) <> "IOS")
                         (Api.data response) ->
                  eval (fetchLatest w app) s
                  = Thrown (JsError "iOS 앱 버전 정보를 찾을 수 없습니다.")))).
Proof.
  split.
  { unfold exec. by rewrite (fetchLatest_run w app s s). }
  unfold fetchLatest, generateToken. eff_unfold. unfold lift. split.
  { intros e ->. reflexivity. }
  intros token ->. cbn [fst snd]. split.
  { intros e ->. reflexivity. }
  intros response ->. cbn [fst snd]. split.
  { intros ->. reflexivity. }
  intros Hne Hall.
  destruct (Api.data response) as [|v l] eqn:Hd; [done|]. cbn [length].
  cbn [Nat.eqb].
  rewrite filter_no_match; [done|].
  eapply Forall_impl; [exact Hall|]. intros item Hi. cbn beta in Hi.
  by apply String.eqb_neq.
Qed.

(** X8.  Which version the fetch reports: the first element of [data]
    whose platform is IOS, in the order of the response, whatever comes
    before it for other platforms and whatever comes after it. *)
Theorem fetch_reports_first_ios_version (w : World) (app : AppConfig)
    (s : Sys) (token : string) (response : Api.Response)
    (pre post : list Api.Version) (v : Api.Version) :
  jwt_sign w (env_key_id w) (env_issuer_id w) (env_private_key w)
  = Returned token ->
  http_get w (versionsUrl app) token = Returned response ->
  Api.data response = (pre ++ v :: post)%list ->
  Forall (fun item => Api.platform (Api.attributes item) <> "IOS") pre ->
  Api.platform (Api.attributes v) = "IOS" ->
  eval (fetchLatest w app) s
  = Returned (currentStatus v, buildNumber v response).
Proof.
  intros Ht Hg Hd Hpre Hv.
  unfold fetchLatest, generateToken. eff_unfold. unfold lift.
  rewrite Ht. cbn [fst snd]. rewrite Hg. cbn [fst snd]. rewrite Hd.
  assert (Hlen : (length (pre ++ v :: post) =? 0)%nat = false).
  { rewrite length_app. simpl. apply Nat.eqb_neq. lia. }
  rewrite Hlen. cbn [fst snd].
  rewrite filter_first_match; [done| |by rewrite Hv].
  eapply Forall_impl; [exact Hpre|]. intros item Hi. cbn beta in Hi.
  by apply String.eqb_neq.
Qed.

Lemma fetch_reports_first_ios_version_witness :
  let mac :=
    {| Api.type := "appStoreVersions"; Api.id := "v-0";
       Api.attributes :=
         {| Api.platform := "MAC_OS"; Api.appVersionState := "ACCEPTED";
            Api.createdDate := None; Api.versionString := "9.9";
            Api.releaseType := "MANUAL" |};
       Api.relationships := None |} in
  let response :=
    {| Api.data := [mac; sample_version "IN_REVIEW" "1.1";
                    sample_version "READY_FOR_DISTRIBUTION" "1.0"];
       Api.included := None |} in
  eval (fetchLatest (sample_world (Returned response) (Returned tt))
                    sample_app) empty_store
  = Returned (sample_status "IN_REVIEW" "1.1", None).
Proof.
  intros mac response.
  apply (fetch_reports_first_ios_version
           (sample_world (Returned response) (Returned tt)) sample_app
           empty_store "token" response [mac]
           [sample_version "READY_FOR_DISTRIBUTION" "1.0"]
           (sample_version "IN_REVIEW" "1.1"));
    try reflexivity.
  apply Forall_cons. split; [discriminate | apply Forall_nil_2].
Defined.

Lemma find_first_match {A} (f : A -> bool) (pre post : list A) (v : A) :
  Forall (fun x => f x = false) pre ->
  f v = true ->
  List.find f (pre ++ v :: post) = Some v.
Proof.
  intros Hpre Hv. induction Hpre as [|x pre Hx _ IH]; simpl.
  - by rewrite Hv.
  - by rewrite Hx.
Qed.

Lemma find_no_match {A} (f : A -> bool) (l : list A) :
  Forall (fun x => f x = false) l -> List.find f l = None.
Proof.
  intros H. induction H as [|x l Hx _ IH]; simpl; [done|]. by rewrite Hx.
Qed.

Lemma build_match_false (item : Api.Included) (buildId : string) :
  Api.inc_type item <> "builds" \/ Api.inc_id item <> buildId ->
  (Api.inc_type item =? "builds") && (Api.inc_id item =? buildId) = false.
Proof.
  intros [H|H]; apply String.eqb_neq in H; rewrite H; [done|].
  by rewrite andb_false_r.
Qed.

(** X9.  The build number of a version that links to a build, in a
    response that has an [included] array: it is the [version] attribute of
    the first included element of type "builds" whose id is the linked id,
    elements of another type or id being skipped; it is absent when no
    element matches, and also when the linked id is the empty string.  The
    type written in the link itself is not looked at. *)
Theorem build_number_lookup (latest : Api.Version)
    (response : Api.Response) (ref : Api.BuildRef)
    (inc : list Api.Included) :
  Api.relationships latest
  = Some {| Api.build := Some {| Api.build_data := Some ref |} |} ->
  Api.included response = Some inc ->
  (Api.ref_id ref = "" -> buildNumber latest response = None)
  /\ (Api.ref_id ref <> "" ->
      (forall pre item post,
         inc = (pre ++ item :: post)%list ->
         Forall (fun i => Api.inc_type i <> "builds"
                          \/ Api.inc_id i <> Api.ref_id ref) pre ->
         Api.inc_type item = "builds" ->
         Api.inc_id item = Api.ref_id ref ->
         buildNumber latest response
         = Api.version (Api.inc_attributes item))
      /\ (Forall (fun i => Api.inc_type i <> "builds"
                           \/ Api.inc_id i <> Api.ref_id ref) inc ->
          buildNumber latest response = None)).
Proof.
  intros Hrel Hinc. unfold buildNumber. rewrite Hrel, Hinc.
  cbn [Api.build Api.build_data fmap option_fmap option_map truthy].
  split.
  { intros ->. reflexivity. }
  intros Hne. apply String.eqb_neq in Hne. rewrite Hne. cbn [negb].
  split.
  - intros pre item post -> Hpre Ht Hi.
    rewrite find_first_match; [done| |].
    + eapply Forall_impl; [exact Hpre|]. intros i. apply build_match_false.
    + by rewrite Ht, Hi, !String.eqb_refl.
  - intros Hall. rewrite find_no_match; [done|].
    eapply Forall_impl; [exact Hall|]. intros i. apply build_match_false.
Qed.

Lemma build_number_lookup_witness :
  let ref := {| Api.ref_type := "anything"; Api.ref_id := "b-7" |} in
  let latest :=
    {| Api.type := "appStoreVersions"; Api.id := "v-1";
       Api.attributes := Api.attributes (sample_version "IN_REVIEW" "1.2.0");
       Api.relationships :=
         Some {| Api.build := Some {| Api.build_data := Some ref |} |} |} in
  let other :=
    {| Api.inc_type := "apps"; Api.inc_id := "b-7";
       Api.inc_attributes := {| Api.version := Some "0" |} |} in
  let found :=
    {| Api.inc_type := "builds"; Api.inc_id := "b-7";
       Api.inc_attributes := {| Api.version := Some "45" |} |} in
  let response :=
    {| Api.data := [latest]; Api.included := Some [other; found] |} in
  buildNumber latest response = Some "45".
Proof.
  intros ref latest other found response.
  destruct (build_number_lookup latest response ref [other; found]
              eq_refl eq_refl) as [_ H].
  destruct (H ltac:(discriminate)) as [Hfound _].
  apply (Hfound [other] found []); try reflexivity.
  apply Forall_cons. split; [left; discriminate | apply Forall_nil_2].
Defined.

(** ** The composer *)

(** X10.  The notification reads the previous record only through its
    state and its version string: two previous records that agree on these
    give the same payload.  A first observation gives the payload of a
    change of state alone from a record with the current version. *)
Theorem payload_reads_previous_state_and_version (w : World)
    (app : AppConfig) (cur : AppStatus) (bn : option string) :
  (forall p p',
     state p = state p' -> versionString p = versionString p' ->
     webhookPayload w app (Some p) cur bn
     = webhookPayload w app (Some p') cur bn)
  /\ (forall p,
        versionString p = versionString cur -> state p <> state cur ->
        webhookPayload w app (Some p) cur bn
        = webhookPayload w app None cur bn).
Proof.
  split.
  - intros p p' Hs Hv.
    unfold webhookPayload, titleText, fields, versionChanged, stateChanged.
    by rewrite Hs, Hv.
  - intros p Hv Hs. apply String.eqb_neq in Hs.
    unfold webhookPayload, titleText, fields, versionChanged, stateChanged.
    by rewrite Hv, Hs, String.eqb_refl.
Qed.

(** ** Whole passes *)

(** The four ways an iteration can go. *)
Lemma checkApp_cases w app s :
  (exists e,
     eval (fetchLatest w app) s = Thrown e
     /\ exec (checkApp w app) s
        = with_console s
            [LogError ("Error checking " +:+ name app +:+ " status:") e;
             LogBare e])
  \/ (exists cur bn,
        eval (fetchLatest w app) s = Returned (cur, bn)
        /\ changed s (appId app) cur = false
        /\ exec (checkApp w app) s
           = {| status_file :=
                  Some (Encoded (<[appId app := cur]> (stored s)));
                console := console s ++ load_log s ++ load_log s;
                outbox := outbox s |})
  \/ (exists cur bn,
        eval (fetchLatest w app) s = Returned (cur, bn)
        /\ changed s (appId app) cur = true
        /\ returned (http_post w (webhookUrl app)
                       (notification w app s cur bn)) = true
        /\ exec (checkApp w app) s
           = {| status_file :=
                  Some (Encoded (<[appId app := cur]> (stored s)));
                console :=
                  console s ++ load_log s ++ load_log s ++ load_log s;
                outbox :=
                  outbox s ++ [attempt w app (notification w app s cur bn)]
             |})
  \/ (exists cur bn e,
        eval (fetchLatest w app) s = Returned (cur, bn)
        /\ changed s (appId app) cur = true
        /\ http_post w (webhookUrl app) (notification w app s cur bn)
           = Thrown e
        /\ exec (checkApp w app) s
           = with_console
               {| status_file := status_file s;
                  console := console s ++ load_log s ++ load_log s;
                  outbox :=
                    outbox s
                    ++ [attempt w app (notification w app s cur bn)] |}
               [LogError ("Error checking " +:+ name app +:+ " status:") e;
                LogBare e]).
Proof.
  unfold exec.
  destruct (eval (fetchLatest w app) s) as [[cur bn]|e] eqn:Hf.
  - rewrite (checkApp_fetched _ _ _ _ _ Hf).
    destruct (changed s (appId app) cur) eqn:Hc.
    + destruct (http_post w (webhookUrl app) (notification w app s cur bn))
        as [[]|e] eqn:Hp.
      * right. right. left. exists cur, bn.
        rewrite notifyAndSave_delivered; [|done|by rewrite Hp].
        by rewrite Hp.
      * right. right. right. exists cur, bn, e.
        rewrite (notifyAndSave_failed _ _ _ _ _ e); [|done|done].
        by rewrite checkAppCatch_run.
    + right. left. exists cur, bn.
      by rewrite notifyAndSave_unchanged.
  - left. exists e. by rewrite (checkApp_fetch_failed _ _ _ _ Hf).
Qed.





Lemma for_of_stored_frame w apps s id :
  id ∉ map appId apps ->
  stored (exec (for_of apps (checkApp w)) s) !! id = stored s !! id.
Proof.
  revert s. induction apps as [|app apps IH]; intros s Hn; [done|].
  unfold exec. rewrite for_of_cons_run by apply checkApp_returns.
  simpl in Hn. apply not_elem_of_cons in Hn as [Hne Hn].
  fold (exec (for_of apps (checkApp w)) (exec (checkApp w app) s)).
  rewrite IH by done.
  destruct (checkApp_stored w app s) as [->|[cur ->]]; [done|].
  by rewrite lookup_insert_ne.
Qed.

Lemma for_of_stored_keeps w apps s id :
  is_Some (stored s !! id) ->
  is_Some (stored (exec (for_of apps (checkApp w)) s) !! id).
Proof.
  revert s. induction apps as [|app apps IH]; intros s Hs; [done|].
  unfold exec. rewrite for_of_cons_run by apply checkApp_returns.
  apply IH.
  destruct (checkApp_stored w app s) as [->|[cur ->]]; [done|].
  destruct (decide (appId app = id)) as [->|Hne].
  - rewrite lookup_insert_eq. by eexists.
  - by rewrite lookup_insert_ne.
Qed.

(** X12.  A pass leaves alone every record of the store whose id is not
    the id of an application of the list, and it removes no record: an id
    that has a record before the pass has one after it. *)
Theorem pass_keeps_foreign_entries (w : World) (apps : list AppConfig)
    (s : Sys) :
  exists m m',
    eval loadPreviousStatuses s = Returned m
    /\ eval loadPreviousStatuses (exec (checkAppStatus w apps) s)
       = Returned m'
    /\ (forall id, id ∉ map appId apps -> m' !! id = m !! id)
    /\ (forall id, is_Some (m !! id) -> is_Some (m' !! id)).
Proof.
  exists (stored s), (stored (exec (checkAppStatus w apps) s)).
  unfold eval. rewrite !loadPreviousStatuses_run. cbn [fst].
  split; [done|]. split; [done|].
  unfold checkAppStatus. case_match.
  - split; intros id Hid; exact Hid || reflexivity.
  - split; intros id Hid.
    + by apply for_of_stored_frame.
    + by apply for_of_stored_keeps.
Qed.

(** *** A second pass over the same answers *)

(** The fetch depends on the application through its id only. *)
Lemma fetchLatest_same_id w app app' s :
  appId app = appId app' ->
  eval (fetchLatest w app) s = eval (fetchLatest w app') s.
Proof.
  intros H. unfold fetchLatest, versionsUrl. by rewrite H.
Qed.

Lemma checkApp_settles w app s :
  accepting w -> settled w (exec (checkApp w app) s) app.
Proof.
  intros Hacc cur bn s0 Hf. rewrite (fetchLatest_eval _ _ _ s) in Hf.
  destruct (checkApp_cases w app s)
    as [(e & Hf' & _)|[(cur' & bn' & Hf' & _ & ->)
       |[(cur' & bn' & Hf' & _ & _ & ->)
       |(cur' & bn' & e & _ & _ & Hp & _)]]].
  - congruence.
  - rewrite Hf in Hf'. injection Hf' as <- <-.
    unfold stored. simpl. by rewrite lookup_insert_eq.
  - rewrite Hf in Hf'. injection Hf' as <- <-.
    unfold stored. simpl. by rewrite lookup_insert_eq.
  - specialize (Hacc (webhookUrl app) (notification w app s cur' bn')).
    by rewrite Hp in Hacc.
Qed.

Lemma checkApp_keeps_settled w app app0 s :
  settled w s app0 -> settled w (exec (checkApp w app) s) app0.
Proof.
  intros Hs cur bn s0 Hf.
  specialize (Hs cur bn s0 Hf).
  destruct (decide (appId app = appId app0)) as [Heq|Hne].
  - rewrite (fetchLatest_eval _ _ _ s) in Hf.
    rewrite <- (fetchLatest_same_id _ _ _ _ Heq) in Hf.
    destruct (checkApp_cases w app s)
      as [(e & _ & ->)|[(cur' & bn' & Hf' & _ & ->)
         |[(cur' & bn' & Hf' & _ & _ & ->)
         |(cur' & bn' & e & _ & _ & _ & ->)]]]; try exact Hs.
    + rewrite Hf in Hf'. injection Hf' as <- <-.
      unfold stored. simpl. by rewrite Heq, lookup_insert_eq.
    + rewrite Hf in Hf'. injection Hf' as <- <-.
      unfold stored. simpl. by rewrite Heq, lookup_insert_eq.
  - destruct (checkApp_stored w app s) as [->|[cur' ->]]; [done|].
    by rewrite lookup_insert_ne.
Qed.

Lemma for_of_keeps_settled w apps app0 s :
  settled w s app0 -> settled w (exec (for_of apps (checkApp w)) s) app0.
Proof.
  revert s. induction apps as [|app apps IH]; intros s Hs; [done|].
  unfold exec. rewrite for_of_cons_run by apply checkApp_returns.
  apply IH. by apply checkApp_keeps_settled.
Qed.

Lemma for_of_settles w apps s :
  accepting w ->
  Forall (settled w (exec (for_of apps (checkApp w)) s)) apps.
Proof.
  intros Hacc. revert s. induction apps as [|app apps IH]; intros s.
  - apply Forall_nil_2.
  - unfold exec. rewrite for_of_cons_run by apply checkApp_returns.
    apply Forall_cons. split; [|apply IH].
    apply for_of_keeps_settled. by apply checkApp_settles.
Qed.

(** An iteration for a settled application sends nothing and keeps the
    store. *)
Lemma checkApp_settled_silent w app s :
  settled w s app ->
  outbox (exec (checkApp w app) s) = outbox s
  /\ stored (exec (checkApp w app) s) = stored s.
Proof.
  intros Hs.
  assert (Hunch : forall cur bn,
    eval (fetchLatest w app) s = Returned (cur, bn) ->
    changed s (appId app) cur = false).
  { intros cur bn Hf. unfold changed. rewrite (Hs cur bn s Hf).
    by rewrite !String.eqb_refl. }
  destruct (checkApp_cases w app s)
    as [(e & _ & ->)|[(cur & bn & Hf & _ & ->)|[(cur & bn & Hf & Hc & _)
       |(cur & bn & e & Hf & Hc & _)]]].
  - done.
  - split; [done|]. unfold stored at 1. simpl.
    apply insert_id. by apply (Hs cur bn s).
  - rewrite (Hunch cur bn Hf) in Hc. done.
  - rewrite (Hunch cur bn Hf) in Hc. done.
Qed.

Lemma settled_ext w w' s s' app :
  (forall s0, eval (fetchLatest w' app) s0 = eval (fetchLatest w app) s0) ->
  stored s' = stored s ->
  settled w s app -> settled w' s' app.
Proof.
  intros Hw Hst Hs cur bn s0 Hf. rewrite Hw in Hf. rewrite Hst.
  by apply (Hs cur bn s0).
Qed.

Lemma for_of_settled_silent w apps s :
  Forall (settled w s) apps ->
  outbox (exec (for_of apps (checkApp w)) s) = outbox s
  /\ stored (exec (for_of apps (checkApp w)) s) = stored s.
Proof.
  revert s. induction apps as [|app apps IH]; intros s Hall; [done|].
  apply Forall_cons in Hall as [Happ Hall].
  unfold exec. rewrite for_of_cons_run by apply checkApp_returns.
  destruct (checkApp_settled_silent w app s Happ) as [Ho Hst].
  destruct (IH (exec (checkApp w app) s)) as [Ho' Hst'].
  { eapply Forall_impl; [exact Hall|]. intros a Ha.
    by apply (settled_ext w w s). }
  unfold exec in *. by rewrite Ho', Hst', Ho, Hst.
Qed.


Lemma checkAppStatus_loop w apps s :
  truthy (env_key_id w) = true ->
  truthy (env_issuer_id w) = true ->
  truthy (env_private_key w) = true ->
  checkAppStatus w apps s = for_of apps (checkApp w) s.
Proof. intros H1 H2 H3. unfold checkAppStatus. by rewrite H1, H2, H3. Qed.

Lemma second_pass_silent w w' apps s :
  accepting w ->
  truthy (env_key_id w) = true ->
  truthy (env_issuer_id w) = true ->
  truthy (env_private_key w) = true ->
  (forall app s0,
     eval (fetchLatest w' app) s0 = eval (fetchLatest w app) s0) ->
  let s1 := exec (checkAppStatus w apps) s in
  outbox (exec (checkAppStatus w' apps) s1) = outbox s1
  /\ stored (exec (checkAppStatus w' apps) s1) = stored s1.
Proof.
  intros Hacc H1 H2 H3 Hsame s1.
  assert (Hs1 : s1 = exec (for_of apps (checkApp w)) s).
  { subst s1. unfold exec. by rewrite (checkAppStatus_loop w). }
  clearbody s1. subst s1.
  set (s1 := exec (for_of apps (checkApp w)) s).
  assert (Hall : Forall (settled w' s1) apps).
  { eapply Forall_impl; [apply (for_of_settles w apps s Hacc)|].
    intros a Ha. apply (settled_ext w w' s1 s1); auto. }
  unfold checkAppStatus. case_match; [by split|].
  by apply for_of_settled_silent.
Qed.

(** X13.  A second pass sends nothing and leaves the store as it is, when
    the first pass ran with its credentials, the webhooks accepted every
    request of the first pass, and the fetches answer the second pass as
    they answered the first. *)
Theorem second_pass_is_silent (w w' : World) (apps : list AppConfig)
    (s : Sys) :
  (forall url payload, returned (http_post w url payload) = true) ->
  truthy (env_key_id w) = true ->
  truthy (env_issuer_id w) = true ->
  truthy (env_private_key w) = true ->
  (forall app s0,
     eval (fetchLatest w' app) s0 = eval (fetchLatest w app) s0) ->
  let s1 := exec (checkAppStatus w apps) s in
  outbox (exec (checkAppStatus w' apps) s1) = outbox s1
  /\ eval loadPreviousStatuses (exec (checkAppStatus w' apps) s1)
     = eval loadPreviousStatuses s1.
Proof.
  intros Hacc H1 H2 H3 Hsame s1.
  destruct (second_pass_silent w w' apps s Hacc H1 H2 H3 Hsame) as [Ho Hst].
  split; [exact Ho|].
  unfold eval. rewrite !loadPreviousStatuses_run. cbn [fst].
  f_equal. exact Hst.
Qed.

Lemma second_pass_is_silent_witness :
  let w := sample_world (Returned (sample_response "IN_REVIEW" "1.0"))
                        (Returned tt) in
  let other :=
    {| name := "Other"; appId := "6446099999";
       webhookUrl := "https://discord.test/api/webhooks/2";
       icon := "https://discord.test/other.png" |} in
  let s1 := exec (checkAppStatus w [sample_app; other]) empty_store in
  length (outbox s1) = 2%nat
  /\ outbox (exec (checkAppStatus w [sample_app; other]) s1) = outbox s1.
Proof.
  intros w other s1. split; [reflexivity|].
  apply (second_pass_is_silent w w [sample_app; other] empty_store);
    try reflexivity.
Defined.

(** ** The driver *)

Lemma credentials_guard w :
  negb (truthy (env_key_id w)) || negb (truthy (env_issuer_id w))
  || negb (truthy (env_private_key w)) = negb (credentials w).
Proof.
  unfold credentials.
  by destruct (truthy (env_key_id w)), (truthy (env_issuer_id w)),
    (truthy (env_private_key w)).
Qed.



(** X14.  How [main] stops at startup.  Without the three credentials, or
    with an [apps.json] that is missing, rejected by the parser, not an
    array, or an empty array, it logs the error and exits with code 1
    before the service is constructed: the status file is not created or
    changed and nothing is sent.  The credentials are checked first. *)
Theorem main_startup_failures (w w' : World) (appsConfigPath : string)
    (s : Sys) :
  (forall appsFile,
     credentials w = false ->
     main w w' appsConfigPath appsFile s
     = startup_failure s (JsError "App Store Connect API not exist"))
  /\ (credentials w = true ->
      main w w' appsConfigPath AppsMissing s
      = startup_failure s
          (JsError ("apps.json not exist: " +:+ appsConfigPath))
      /\ main w w' appsConfigPath AppsMalformed s
         = startup_failure s (SystemError "SyntaxError")
      /\ main w w' appsConfigPath AppsNotArray s
         = startup_failure s (JsError "apps.json is empty or invalid.")
      /\ main w w' appsConfigPath (AppsArray []) s
         = startup_failure s (JsError "apps.json is empty or invalid.")).
Proof.
  split.
  - intros appsFile Hc. unfold main. rewrite credentials_guard, Hc.
    reflexivity.
  - intros Hc. unfold main. rewrite credentials_guard, Hc.
    repeat split.
Qed.



(** ** What a pass leaves in the store *)

(** X16.  After a pass that ran with its credentials and whose webhook
    requests were all accepted, the store holds, for every application of
    the list whose fetch returned a record, exactly that record, also when
    the list names an application more than once. *)
Theorem pass_records_fetched_statuses (w : World) (apps : list AppConfig)
    (s : Sys) (app : AppConfig) (cur : AppStatus) (bn : option string) :
  credentials w = true ->
  (forall url payload, returned (http_post w url payload) = true) ->
  app ∈ apps ->
  eval (fetchLatest w app) s = Returned (cur, bn) ->
  exists m,
    eval loadPreviousStatuses (exec (checkAppStatus w apps) s) = Returned m
    /\ m !! appId app = Some cur.
Proof.
  intros Hc Hacc Hin Hf.
  unfold credentials in Hc.
  apply andb_true_iff in Hc as [Hc H3]. apply andb_true_iff in Hc as [H1 H2].
  exists (stored (exec (checkAppStatus w apps) s)). split.
  { unfold eval. by rewrite loadPreviousStatuses_run. }
  unfold exec. rewrite (checkAppStatus_loop w) by done.
  pose proof (for_of_settles w apps s Hacc) as Hall.
  rewrite Forall_forall in Hall.
  exact (Hall app Hin cur bn s Hf).
Qed.

Lemma pass_records_fetched_statuses_witness :
  let w := sample_world (Returned (sample_response "IN_REVIEW" "1.0"))
                        (Returned tt) in
  exists m,
    eval loadPreviousStatuses
      (exec (checkAppStatus w [sample_app; sample_app]) corrupt_store)
    = Returned m
    /\ m !! "6446012345" = Some (sample_status "IN_REVIEW" "1.0").
Proof.
  intros w.
  apply (pass_records_fetched_statuses w [sample_app; sample_app]
           corrupt_store sample_app (sample_status "IN_REVIEW" "1.0") None);
    try reflexivity.
  apply list_elem_of_here.
Defined.

(** X17.  An iteration that finds the status file missing or rejected by
    the parser, fetches a record and has its request accepted: the request
    is the one of a first observation, the three failed reads of the file
    are logged, and the file is replaced by the encoding of the mapping
    holding the fetched record alone. *)
Theorem unreadable_file_is_rebuilt (w : World) (app : AppConfig) (s : Sys)
    (cur : AppStatus) (bn : option string) :
  status_file s = None \/ (exists raw, status_file s = Some (Malformed raw)) ->
  eval (fetchLatest w app) s = Returned (cur, bn) ->
  returned (http_post w (webhookUrl app) (webhookPayload w app None cur bn))
  = true ->
  let s' := exec (checkApp w app) s in
  status_file s' = Some (JSON_stringify {[appId app := cur]})
  /\ outbox s'
     = (outbox s ++
        [ {| to := webhookUrl app;
             body := webhookPayload w app None cur bn;
             delivered := true |} ])%list
  /\ exists e,
       console s'
       = (console s ++
          [LogError "상태 파일을 읽는 중 오류가 발생했습니다:" e;
           LogError "상태 파일을 읽는 중 오류가 발생했습니다:" e;
           LogError "상태 파일을 읽는 중 오류가 발생했습니다:" e])%list.
Proof.
  intros Hfile Hf Hp s'. subst s'.
  assert (Hst : stored s = ∅).
  { unfold stored. destruct Hfile as [->|[raw ->]]; reflexivity. }
  assert (Hc : changed s (appId app) cur = true).
  { unfold changed. by rewrite Hst, lookup_empty. }
  assert (Hn : notification w app s cur bn = webhookPayload w app None cur bn).
  { unfold notification. by rewrite Hst, lookup_empty. }
  unfold exec. rewrite (checkApp_fetched _ _ _ _ _ Hf).
  rewrite notifyAndSave_delivered; [|done|by rewrite Hn].
  cbn [snd status_file outbox console].
  rewrite Hst, insert_empty, Hn. unfold attempt. rewrite Hp.
  split; [done|]. split; [done|].
  unfold load_log.
  destruct Hfile as [->|[raw ->]]; eexists; reflexivity.
Qed.

Lemma unreadable_file_is_rebuilt_witness :
  let w := sample_world (Returned (sample_response "IN_REVIEW" "1.0"))
                        (Returned tt) in
  status_file (exec (checkApp w sample_app) corrupt_store)
  = Some (Encoded {[ "6446012345" := sample_status "IN_REVIEW" "1.0" ]})
  /\ length (outbox (exec (checkApp w sample_app) corrupt_store)) = 1%nat.
Proof.
  intros w.
  destruct (unreadable_file_is_rebuilt w sample_app corrupt_store
              (sample_status "IN_REVIEW" "1.0") None
              (or_intror (ex_intro _ "{ not json" eq_refl))
              eq_refl eq_refl) as (Hfile & Hout & _).
  split; [exact Hfile|]. rewrite Hout. reflexivity.
Defined.
